(** * Match-record extraction of [DataAcquisition._get_flashscore_data]

    A shallow embedding of the per-record loop of
    [src/data_management/_Data_acquisition.py] (lines 138-178) and of the
    Python built-ins it calls ([str.split], [list.remove], [str.index],
    slicing, [int], [datetime.strptime], [datetime.replace]).

    Modelling conventions.
    - Text is a [string] of 8-bit characters; the digit and whitespace
      classes used by [int] and by [strptime] are the ASCII ones.
    - The browser is the environment: the run receives the list of the
      [match.text] values that [driver.find_elements] returned, in page
      order.
    - A Python exception is a value of [exn]; a computation that may raise
      has type [result A].
    - [loguru] calls append a structured entry to a log list. *)

From Stdlib Require Import String Ascii List ZArith Bool Lia.
Import ListNotations.

Local Open Scope string_scope.
Local Open Scope Z_scope.

(** ** Exceptions and the error monad *)

Inductive exn : Type :=
| ValueError
| TypeError
| OverflowError.

Inductive result (A : Type) : Type :=
| Ok (a : A)
| Raise (e : exn).

Arguments Ok {A} a.
Arguments Raise {A} e.

Definition bind {A B : Type} (r : result A) (k : A -> result B) : result B :=
  match r with
  | Ok a => k a
  | Raise e => Raise e
  end.

Notation "x <- r ;; k" := (bind r (fun x => k))
  (at level 61, r at next level, right associativity).

(** A Python value as the loop handles them: the tokens are [str], the
    defaults of the fifth period and the tracked year are [int]. *)
Inductive pyval : Type :=
| PyStr (s : string)
| PyInt (z : Z).

(** ** Characters *)

Definition nl : ascii := "010"%char.

Definition is_digit (c : ascii) : bool :=
  ((48 <=? nat_of_ascii c) && (nat_of_ascii c <=? 57))%nat.

Definition digit_val (c : ascii) : Z := Z.of_nat (nat_of_ascii c) - 48.

(** The blanks [int] skips around a numeral (C [isspace]): TAB, LF, VT,
    FF, CR and the space. *)
Definition is_space (c : ascii) : bool :=
  let n := nat_of_ascii c in
  ((9 <=? n) && (n <=? 13) || (n =? 32))%nat.

(** The class [\s] of [re] on [str]: the six above and the separators
    0x1c-0x1f. *)
Definition is_re_space (c : ascii) : bool :=
  let n := nat_of_ascii c in
  (is_space c || (28 <=? n) && (n <=? 31))%nat.

(** ** [str.split(sep)] for a one-character separator *)

Fixpoint split (sep : ascii) (s : string) : list string :=
  match s with
  | EmptyString => [EmptyString]
  | String c s' =>
      if Ascii.eqb c sep then EmptyString :: split sep s'
      else match split sep s' with
           | [] => [String c EmptyString]
           | t :: ts => String c t :: ts
           end
  end.

(** [x in l] on a list of strings. *)
Fixpoint contains (x : string) (l : list string) : bool :=
  match l with
  | [] => false
  | y :: l' => String.eqb y x || contains x l'
  end.

(** [list.remove(x)]: drops the first element equal to [x]. The loop calls
    it only under [x in l], so the [ValueError] of an absent element is
    never reached; on an absent element the model returns the list. *)
Fixpoint remove (x : string) (l : list string) : list string :=
  match l with
  | [] => []
  | y :: l' => if String.eqb y x then l' else y :: remove x l'
  end.

(** Lines 143-144:
    [match_text = match.text.split("\n")]
    [match_text.remove('AOT') if 'AOT' in match_text else ...] *)
Definition tokenize (text : string) : list string :=
  let match_text := split nl text in
  if contains "AOT" match_text then remove "AOT" match_text else match_text.

(** ** [str.index], slicing *)

(** [s.index(c)] for a one-character [c]: the least position, [ValueError]
    when absent. *)
Fixpoint index (c : ascii) (s : string) : result nat :=
  match s with
  | EmptyString => Raise ValueError
  | String d s' =>
      if Ascii.eqb d c then Ok O
      else i <- index c s' ;; Ok (S i)
  end.

(** [s[:i]] for [i >= 0]. *)
Fixpoint slice_to (i : nat) (s : string) : string :=
  match i, s with
  | O, _ => EmptyString
  | S _, EmptyString => EmptyString
  | S i', String c s' => String c (slice_to i' s')
  end.

(** [s[i:]] for [i >= 0]. *)
Fixpoint slice_from (i : nat) (s : string) : string :=
  match i, s with
  | O, _ => s
  | S _, EmptyString => EmptyString
  | S i', String _ s' => slice_from i' s'
  end.

(** [a > b] on [str]: lexicographic on the character codes. *)
Definition str_gt (a b : string) : bool := String.ltb b a.

(** ** [int(x)] *)

(** CPython's default [sys.int_max_str_digits]. *)
Definition int_max_str_digits : Z := 4300.

Fixpoint lstrip (s : string) : string :=
  match s with
  | String c s' => if is_space c then lstrip s' else s
  | EmptyString => s
  end.

(** The digit scan of [int]: digits with single underscores between them.
    [prev_us] tells whether the previous character was an underscore, [acc]
    is the value read and [n] the number of digits read. [None] is a syntax
    error; otherwise the value, the digit count and the unread rest. *)
Fixpoint scan_digits (s : string) (prev_us : bool) (acc n : Z)
  : option (Z * Z * string) :=
  match s with
  | EmptyString => if prev_us then None else Some (acc, n, s)
  | String c s' =>
      if is_digit c then scan_digits s' false (10 * acc + digit_val c) (n + 1)
      else if Ascii.eqb c "_" then
             if prev_us then None else scan_digits s' true acc n
      else if prev_us then None else Some (acc, n, s)
  end.

(** The literal grammar of [int(s)] in base 10: blanks, an optional sign,
    the digits, blanks. [None] when the text is not such a literal or has
    more than [int_max_str_digits] digits. *)
Definition parse_int (s : string) : option Z :=
  let s1 := lstrip s in
  let '(sign, s2) :=
    match s1 with
    | String c r =>
        if Ascii.eqb c "+" then (1, r)
        else if Ascii.eqb c "-" then (-1, r)
        else (1, s1)
    | EmptyString => (1, s1)
    end in
  let leading_underscore :=
    match s2 with
    | String c _ => Ascii.eqb c "_"
    | EmptyString => false
    end in
  if leading_underscore then None
  else
    match scan_digits s2 false 0 0 with
    | None => None
    | Some (v, n, rest) =>
        if n =? 0 then None
        else if int_max_str_digits <? n then None
        else match lstrip rest with
             | EmptyString => Some (sign * v)
             | String _ _ => None
             end
    end.

(** [int(s)] for a [str]: a [ValueError] when the text is not accepted. *)
Definition int_str (s : string) : result Z :=
  match parse_int s with
  | Some z => Ok z
  | None => Raise ValueError
  end.

(** [int(x)]: the identity on an [int]. *)
Definition int (x : pyval) : result Z :=
  match x with
  | PyInt z => Ok z
  | PyStr s => int_str s
  end.

(** ** [datetime] *)

(** A naive [datetime]; the seconds and microseconds, always zero here, are
    left out. *)
Record datetime : Type := mk_datetime {
  year : Z;
  month : Z;
  day : Z;
  hour : Z;
  minute : Z
}.

Definition MINYEAR : Z := 1.
Definition MAXYEAR : Z := 9999.

Definition is_leap (y : Z) : bool :=
  (y mod 4 =? 0) && (negb (y mod 100 =? 0) || (y mod 400 =? 0)).

Definition days_in_month (y m : Z) : Z :=
  if m =? 2 then (if is_leap y then 29 else 28)
  else if (m =? 4) || (m =? 6) || (m =? 9) || (m =? 11) then 30
  else 31.

(** The range checks of the [datetime] constructor. *)
Definition new_datetime (y m d hh mm : Z) : result datetime :=
  if negb ((MINYEAR <=? y) && (y <=? MAXYEAR)) then Raise ValueError
  else if negb ((1 <=? m) && (m <=? 12)) then Raise ValueError
  else if negb ((1 <=? d) && (d <=? days_in_month y m)) then Raise ValueError
  else if negb ((0 <=? hh) && (hh <=? 23)) then Raise ValueError
  else if negb ((0 <=? mm) && (mm <=? 59)) then Raise ValueError
  else Ok (mk_datetime y m d hh mm).

(** [dt.replace(year=v)]: the argument is converted to a C [int] first (a
    [str] is a [TypeError], a value that does not fit an [OverflowError]);
    then the constructor's checks. *)
Definition replace_year (dt : datetime) (v : pyval) : result datetime :=
  match v with
  | PyStr _ => Raise TypeError
  | PyInt y =>
      if negb ((- 2 ^ 31 <=? y) && (y <? 2 ^ 31)) then Raise OverflowError
      else new_datetime y (month dt) (day dt) (hour dt) (minute dt)
  end.

(** ** [datetime.strptime(s, '%d.%m. %H:%M')]

    [_strptime] turns the format into the regular expression
    [(?P<d>3[0-1]|[1-2]\d|0[1-9]|[1-9]| [1-9])\.]
    [(?P<m>1[0-2]|0[1-9]|[1-9])\.\s+]
    [(?P<H>2[0-3]|[0-1]\d|\d):(?P<M>[0-5]\d|\d)]
    and matches it at the start of the text. A matcher returns its matches
    as (matched text, rest), in the order the backtracking engine tries
    them. *)
Definition re : Type := string -> list (string * string).

Definition re_char (p : ascii -> bool) : re :=
  fun s =>
    match s with
    | String c s' => if p c then [(String c EmptyString, s')] else []
    | EmptyString => []
    end.

Definition re_seq (a b : re) : re :=
  fun s =>
    flat_map (fun '(m1, r1) => map (fun '(m2, r2) => (m1 ++ m2, r2)) (b r1)) (a s).

Definition re_alt (a b : re) : re := fun s => (a s ++ b s)%list.

(** [\s+], greedy: the longest run first. *)
Fixpoint re_spaces (s : string) : list (string * string) :=
  match s with
  | String c s' =>
      if is_re_space c
      then (map (fun '(m, r) => (String c m, r)) (re_spaces s')
              ++ [(String c EmptyString, s')])%list
      else []
  | EmptyString => []
  end.

Definition in_range (lo hi : ascii) (c : ascii) : bool :=
  ((nat_of_ascii lo <=? nat_of_ascii c) && (nat_of_ascii c <=? nat_of_ascii hi))%nat.

Definition re_lit (c : ascii) : re := re_char (Ascii.eqb c).

Definition re_d : re :=
  re_alt (re_seq (re_lit "3") (re_char (in_range "0" "1")))
  (re_alt (re_seq (re_char (in_range "1" "2")) (re_char is_digit))
  (re_alt (re_seq (re_lit "0") (re_char (in_range "1" "9")))
  (re_alt (re_char (in_range "1" "9"))
          (re_seq (re_lit " ") (re_char (in_range "1" "9")))))).

Definition re_m : re :=
  re_alt (re_seq (re_lit "1") (re_char (in_range "0" "2")))
  (re_alt (re_seq (re_lit "0") (re_char (in_range "1" "9")))
          (re_char (in_range "1" "9"))).

Definition re_H : re :=
  re_alt (re_seq (re_lit "2") (re_char (in_range "0" "3")))
  (re_alt (re_seq (re_char (in_range "0" "1")) (re_char is_digit))
          (re_char is_digit)).

Definition re_M : re :=
  re_alt (re_seq (re_char (in_range "0" "5")) (re_char is_digit))
         (re_char is_digit).

(** The groups d, m, H, M of every match of the whole expression, with the
    unmatched rest, in the engine's order. *)
Definition format_matches (s : string)
  : list (string * string * string * string * string) :=
  flat_map (fun '(d, r1) =>
  flat_map (fun '(_, r2) =>
  flat_map (fun '(m, r3) =>
  flat_map (fun '(_, r4) =>
  flat_map (fun '(_, r5) =>
  flat_map (fun '(H, r6) =>
  flat_map (fun '(_, r7) =>
  map (fun '(M, r8) => (d, m, H, M, r8)) (re_M r7))
    (re_lit ":" r6)) (re_H r5)) (re_spaces r4)) (re_lit "." r3))
    (re_m r2)) (re_lit "." r1)) (re_d s).

(** [format_regex.match] takes the first match; text left over after it is
    "unconverted data"; the date is built in the default year 1900. *)
Definition strptime (s : string) : result datetime :=
  match format_matches s with
  | [] => Raise ValueError
  | (d, m, H, M, rest) :: _ =>
      match rest with
      | String _ _ => Raise ValueError
      | EmptyString =>
          dd <- int_str d ;;
          mo <- int_str m ;;
          hh <- int_str H ;;
          mi <- int_str M ;;
          new_datetime 1900 mo dd hh mi
      end
  end.

(** ** The output table and the log *)

(** A row of [self.df], under the column names of line 124. *)
Record Row : Type := mk_Row {
  State : string;
  League : string;
  league_years : string;
  DT : datetime;
  Home : string;
  Away : string;
  Winner : string;
  Home_points : Z;
  Away_points : Z;
  H_14 : Z; A_14 : Z;
  H_24 : Z; A_24 : Z;
  H_34 : Z; A_34 : Z;
  H_44 : Z; A_44 : Z;
  H_54 : Z; A_54 : Z
}.

Inductive level : Type := ERROR | INFO.

(** The three messages of the function; [UnknownDiv] carries the
    [match_text] that the message prints. *)
Inductive message : Type :=
| UnknownDiv (match_text : list string)
| Parsed (n : nat) (url : string)
| Unsuccessful (url : string).

Definition log_entry : Type := level * message.

(** What the loop carries from one match to the next: the table, the two
    locals [last_month] and [dt_year], and the log. *)
Record loop_state : Type := mk_state {
  df : list Row;
  last_month : Z;
  dt_year : pyval;
  log : list log_entry
}.

(** Line 155, on the two tokens as unpacked:
    ["home" if h_all > a_all else "away" if a_all > h_all else "draw"]. *)
Definition winner_of (h_all a_all : string) : string :=
  if str_gt h_all a_all then "home"
  else if str_gt a_all h_all then "away" else "draw".

(** A state with its log replaced. *)
Definition set_log (l : list log_entry) (st : loop_state) : loop_state :=
  mk_state (df st) (last_month st) (dt_year st) l.

Section Run.

(** The arguments [year_league], [state], [league] of the call. *)
Variables year_league state league : string.

(** Lines 155-173, with the tokens unpacked; [h54] and [a54] are the
    [int] 0 or the last two tokens. *)
Definition process_fields (st : loop_state)
    (date_str home away h_all a_all h14 a14 h24 a24 h34 a34 h44 a44 : string)
    (h54 a54 : pyval) : result loop_state :=
  let winner := winner_of h_all a_all in
  index_space <- index " " date_str ;;
  let date_str := slice_to index_space date_str ++ slice_from index_space date_str in
  dt <- strptime date_str ;;
  let month := month dt in
  let dt_year :=
    if (last_month st =? 1) && (month =? 12)
    then PyStr (slice_to 4 year_league) else dt_year st in
  let last_month := month in
  dt <- replace_year dt dt_year ;;
  h_all <- int (PyStr h_all) ;;
  a_all <- int (PyStr a_all) ;;
  h14 <- int (PyStr h14) ;;
  a14 <- int (PyStr a14) ;;
  h24 <- int (PyStr h24) ;;
  a24 <- int (PyStr a24) ;;
  h34 <- int (PyStr h34) ;;
  a34 <- int (PyStr a34) ;;
  h44 <- int (PyStr h44) ;;
  a44 <- int (PyStr a44) ;;
  h54 <- int h54 ;;
  a54 <- int a54 ;;
  let row :=
    mk_Row state league year_league dt home away winner
           h_all a_all h14 a14 h24 a24 h34 a34 h44 a44 h54 a54 in
  Ok (mk_state (df st ++ [row]) last_month dt_year (log st)).

(** One iteration of the loop of line 141 on the text of one match. *)
Definition process_match (st : loop_state) (text : string) : result loop_state :=
  let match_text := tokenize text in
  match match_text with
  | [date_str; home; away; h_all; a_all; h14; a14; h24; a24; h34; a34; h44; a44] =>
      process_fields st date_str home away h_all a_all
                     h14 a14 h24 a24 h34 a34 h44 a44 (PyInt 0) (PyInt 0)
  | [date_str; home; away; h_all; a_all; h14; a14; h24; a24; h34; a34; h44; a44;
     h54; a54] =>
      process_fields st date_str home away h_all a_all
                     h14 a14 h24 a24 h34 a34 h44 a44 (PyStr h54) (PyStr a54)
  | _ =>
      Ok (set_log (log st ++ [(ERROR, UnknownDiv match_text)]) st)
  end.

(** The [for] loop: an exception leaves it at once, with the table and the
    log as the earlier iterations left them. *)
Fixpoint loop (st : loop_state) (matches : list string)
  : loop_state * option exn :=
  match matches with
  | [] => (st, None)
  | text :: matches' =>
      match process_match st text with
      | Ok st' => loop st' matches'
      | Raise e => (st, Some e)
      end
  end.

End Run.

(** The object: [self.fpath] and [self.df]. *)
Record DataAcquisition : Type := mk_DataAcquisition {
  fpath : string;
  self_df : option (list Row)
}.

(** What a call leaves behind: the object, the entries logged, and the
    exception that ended it, if any. *)
Record outcome : Type := mk_outcome {
  self_after : DataAcquisition;
  logged : list log_entry;
  raised : option exn
}.

(** Lines 175-178, and what the caller sees when the loop raised: the
    table as the loop left it, and no summary. *)
Definition summarize (self : DataAcquisition) (url : string)
    (p : loop_state * option exn) : outcome :=
  let '(st, r) := p in
  let self := mk_DataAcquisition (fpath self) (Some (df st)) in
  match r with
  | Some e => mk_outcome self (log st) (Some e)
  | None =>
      let summary :=
        if (0 <? length (df st))%nat
        then (INFO, Parsed (length (df st)) url)
        else (INFO, Unsuccessful url) in
      mk_outcome self (log st ++ [summary]) None
  end.

(** Lines 123 and 138-178. [matches] is the list of the [match.text] of the
    elements found on the page. *)
Definition _get_flashscore_data (self : DataAcquisition) (matches : list string)
    (url year_league state league : string) : outcome :=
  let self := mk_DataAcquisition (fpath self) (Some []) in
  let last_month := -1 in
  match int (PyStr (slice_from 5 year_league)) with
  | Raise e => mk_outcome self [] (Some e)
  | Ok dt_year =>
      summarize self url
        (loop year_league state league
              (mk_state [] last_month (PyInt dt_year) []) matches)
  end.

(** The rows a call leaves in [self.df]. *)
Definition rows_of (o : outcome) : list Row :=
  match self_df (self_after o) with
  | Some t => t
  | None => []
  end.

(** ["\n".join(l)], to write the text of an element line by line. *)
Fixpoint join (sep : ascii) (l : list string) : string :=
  match l with
  | [] => EmptyString
  | [t] => t
  | t :: l' => t ++ String sep (join sep l')
  end.

Definition lines (l : list string) : string := join nl l.

(** ** Notions of the specification *)

(** A raw block is valid when it has 13 or 15 tokens. *)
Definition valid_block (text : string) : bool :=
  let n := length (tokenize text) in ((n =? 13) || (n =? 15))%nat.

Fixpoint has_char (c : ascii) (s : string) : bool :=
  match s with
  | EmptyString => false
  | String d s' => Ascii.eqb d c || has_char c s'
  end.



(** [row] is the record of the block [text] in the year [y]: every column
    comes from the token at its position. *)
Definition row_from (year_league state league : string) (y : Z)
    (text : string) (row : Row) : Prop :=
  let tok i := nth i (tokenize text) EmptyString in
  State row = state /\ League row = league /\ league_years row = year_league /\
  (exists dt, strptime (tok 0%nat) = Ok dt /\
     DT row = mk_datetime y (month dt) (day dt) (hour dt) (minute dt)) /\
  Home row = tok 1%nat /\ Away row = tok 2%nat /\
  Winner row = winner_of (tok 3%nat) (tok 4%nat) /\
  int_str (tok 3%nat) = Ok (Home_points row) /\
  int_str (tok 4%nat) = Ok (Away_points row) /\
  int_str (tok 5%nat) = Ok (H_14 row) /\ int_str (tok 6%nat) = Ok (A_14 row) /\
  int_str (tok 7%nat) = Ok (H_24 row) /\ int_str (tok 8%nat) = Ok (A_24 row) /\
  int_str (tok 9%nat) = Ok (H_34 row) /\ int_str (tok 10%nat) = Ok (A_34 row) /\
  int_str (tok 11%nat) = Ok (H_44 row) /\ int_str (tok 12%nat) = Ok (A_44 row) /\
  (length (tokenize text) = 13%nat -> H_54 row = 0 /\ A_54 row = 0) /\
  (length (tokenize text) = 15%nat ->
     int_str (tok 13%nat) = Ok (H_54 row) /\ int_str (tok 14%nat) = Ok (A_54 row)).

(** ** Sample page elements *)

Definition acq : DataAcquisition := mk_DataAcquisition "data.csv" None.

Definition jan_block : string :=
  lines ["05.01. 18:00"; "TeamA"; "TeamB"; "100"; "99";
         "20"; "18"; "25"; "20"; "25"; "24"; "30"; "37"].

Definition dec_block : string :=
  lines ["01.12. 18:00"; "TeamA"; "TeamB"; "90"; "85";
         "20"; "18"; "25"; "20"; "25"; "24"; "20"; "23"].

Definition overtime_block : string :=
  lines ["03.12. 20:30"; "TeamC"; "TeamD"; "AOT"; "95"; "97";
         "20"; "18"; "25"; "20"; "25"; "24"; "15"; "23"; "10"; "12"].

Definition short_block : string :=
  lines ["03.12. 20:30"; "TeamC"; "TeamD"; "95"; "97";
         "20"; "18"; "25"; "20"; "25"; "24"; "15"; "23"; "10"].

Definition dash_block : string :=
  lines ["02.12. 19:00"; "TeamE"; "TeamF"; "80"; "70";
         "20"; "18"; "25"; "20"; "-"; "24"; "15"; "8"].


(** ** Notions for the properties of the loop *)

(** The entries the loop logs on a part of the page: one for each block
    that is not valid, in the order of the page. *)
Definition skip_entries (matches : list string) : list log_entry :=
  map (fun text => (ERROR, UnknownDiv (tokenize text)))
      (filter (fun text => negb (valid_block text)) matches).

(** The entry of lines 175-178 for a table of [n] rows. *)
Definition summary_entry (n : nat) (url : string) : log_entry :=
  if (0 <? n)%nat then (INFO, Parsed n url) else (INFO, Unsuccessful url).

(** The number of occurrences of a character in a text. *)
Fixpoint count_char (c : ascii) (s : string) : nat :=
  match s with
  | EmptyString => O
  | String d s' => ((if Ascii.eqb d c then 1 else 0) + count_char c s')%nat
  end.

(** A text of decimal digits only, and the number it writes. *)
Fixpoint all_digits (s : string) : bool :=
  match s with
  | EmptyString => true
  | String c s' => is_digit c && all_digits s'
  end.

Fixpoint digits_value (acc : Z) (s : string) : Z :=
  match s with
  | EmptyString => acc
  | String c s' => digits_value (10 * acc + digit_val c) s'
  end.

(** [last_month] is the month of the last row of the table, or still -1
    when the table is empty. *)
Definition tracks_last_row (st : loop_state) : Prop :=
  match rev (df st) with
  | [] => last_month st = -1
  | row :: _ => last_month st = month (DT row)
  end.

(** No row of January is directly followed by a row of December. *)
Definition no_rollover_pair (rows : list Row) : Prop :=
  forall l1 r1 r2 l2,
    rows = (l1 ++ r1 :: r2 :: l2)%list ->
    ~ (month (DT r1) = 1 /\ month (DT r2) = 12).


(** The date and time text "dd.mm. HH:MM" of eight characters. *)
Definition date_text (d1 d2 m1 m2 h1 h2 n1 n2 : ascii) : string :=
  String d1 (String d2 (String "." (String m1 (String m2 (String "."
  (String " " (String h1 (String h2 (String ":" (String n1 (String n2
   EmptyString))))))))))).

(** The number two decimal digits write. *)
Definition two_digits (c1 c2 : ascii) : Z := 10 * digit_val c1 + digit_val c2.

(** * Properties *)

(** ** Basic facts on the built-ins *)

Lemma bind_Ok_inv {A B : Type} (r : result A) (k : A -> result B) (b : B) :
  bind r k = Ok b -> exists a, r = Ok a /\ k a = Ok b.
Proof.
  destruct r as [a | e]; simpl; intros H; [exists a; auto | discriminate].
Qed.

Lemma slice_to_from (i : nat) (s : string) :
  slice_to i s ++ slice_from i s = s.
Proof.
  revert s; induction i as [| i IH]; intros [| c s]; simpl; try reflexivity.
  now rewrite IH.
Qed.

Lemma int_str_raises (s : string) (e : exn) :
  int_str s = Raise e -> e = ValueError.
Proof.
  unfold int_str. destruct (parse_int s); congruence.
Qed.

Lemma int_str_total (s : string) :
  int_str s = Raise ValueError \/ exists z, int_str s = Ok z.
Proof.
  unfold int_str. destruct (parse_int s); eauto.
Qed.

(** ** One iteration *)

Section Iteration.

Variables year_league state league : string.

(** What a successful pass through lines 155-173 did. *)
Lemma process_fields_Ok st date_str home away h_all a_all
      h14 a14 h24 a24 h34 a34 h44 a44 h54 a54 st' :
  process_fields year_league state league st date_str home away h_all a_all
         h14 a14 h24 a24 h34 a34 h44 a44 h54 a54 = Ok st' ->
  exists dt dt' y zh za z1 z2 z3 z4 z5 z6 z7 z8 z9 z10,
    strptime date_str = Ok dt /\
    (last_month st =? 1) && (month dt =? 12) = false /\
    dt_year st = PyInt y /\
    replace_year dt (PyInt y) = Ok dt' /\
    int_str h_all = Ok zh /\ int_str a_all = Ok za /\
    int_str h14 = Ok z1 /\ int_str a14 = Ok z2 /\
    int_str h24 = Ok z3 /\ int_str a24 = Ok z4 /\
    int_str h34 = Ok z5 /\ int_str a34 = Ok z6 /\
    int_str h44 = Ok z7 /\ int_str a44 = Ok z8 /\
    int h54 = Ok z9 /\ int a54 = Ok z10 /\
    st' = mk_state
            (df st ++ [mk_Row state league year_league dt' home away
                              (winner_of h_all a_all)
                              zh za z1 z2 z3 z4 z5 z6 z7 z8 z9 z10])
            (month dt) (PyInt y) (log st).
Proof.
  unfold process_fields. intros H.
  apply bind_Ok_inv in H as (i & Hi & H).
  rewrite slice_to_from in H.
  apply bind_Ok_inv in H as (dt & Hdt & H).
  destruct ((last_month st =? 1) && (month dt =? 12)) eqn:Hroll.
  { simpl in H. discriminate. }
  apply bind_Ok_inv in H as (dt' & Hrep & H).
  destruct (dt_year st) as [s | y] eqn:Hy; [simpl in Hrep; discriminate |].
  repeat (apply bind_Ok_inv in H as (? & ? & H)).
  injection H as <-.
  simpl in *.
  do 15 eexists. repeat (split; [eassumption || reflexivity |]). reflexivity.
Qed.

(** The three branches of lines 145-153. *)
Lemma process_match_cases st text :
  (exists date_str home away h_all a_all h14 a14 h24 a24 h34 a34 h44 a44,
      tokenize text = [date_str; home; away; h_all; a_all;
                       h14; a14; h24; a24; h34; a34; h44; a44] /\
      process_match year_league state league st text =
      process_fields year_league state league st date_str home away h_all a_all
                     h14 a14 h24 a24 h34 a34 h44 a44 (PyInt 0) (PyInt 0)) \/
  (exists date_str home away h_all a_all h14 a14 h24 a24 h34 a34 h44 a44 h54 a54,
      tokenize text = [date_str; home; away; h_all; a_all;
                       h14; a14; h24; a24; h34; a34; h44; a44; h54; a54] /\
      process_match year_league state league st text =
      process_fields year_league state league st date_str home away h_all a_all
                     h14 a14 h24 a24 h34 a34 h44 a44 (PyStr h54) (PyStr a54)) \/
  (length (tokenize text) <> 13%nat /\ length (tokenize text) <> 15%nat /\
   process_match year_league state league st text =
     Ok (set_log (log st ++ [(ERROR, UnknownDiv (tokenize text))]) st)).
Proof.
  unfold process_match.
  destruct (tokenize text)
    as [| t0 [| t1 [| t2 [| t3 [| t4 [| t5 [| t6 [| t7 [| t8 [| t9 [| t10
       [| t11 [| t12 [| t13 [| t14 [| t15 l]]]]]]]]]]]]]]]];
    try (right; right; simpl; repeat split; (discriminate || reflexivity || lia)).
  - left. do 13 eexists. split; reflexivity.
  - right; left. do 15 eexists. split; reflexivity.
Qed.

(** The log is only written, never read. *)
Lemma process_fields_set_log l st date_str home away h_all a_all
      h14 a14 h24 a24 h34 a34 h44 a44 h54 a54 :
  process_fields year_league state league (set_log l st) date_str home away h_all a_all
         h14 a14 h24 a24 h34 a34 h44 a44 h54 a54 =
  match process_fields year_league state league st date_str home away h_all a_all
               h14 a14 h24 a24 h34 a34 h44 a44 h54 a54 with
  | Ok st' => Ok (set_log l st')
  | Raise e => Raise e
  end.
Proof.
  unfold process_fields. simpl.
  repeat match goal with
         | |- context [bind ?r _] => destruct r; simpl; try reflexivity
         end.
Qed.

Lemma process_match_set_log l st text :
  match process_match year_league state league st text with
  | Ok st' =>
      exists l',
        process_match year_league state league (set_log l st) text
        = Ok (set_log l' st')
  | Raise e => process_match year_league state league (set_log l st) text = Raise e
  end.
Proof.
  destruct (process_match_cases (set_log l st) text)
    as [(d & h & a & ha & aa & p1 & p2 & p3 & p4 & p5 & p6 & p7 & p8 & Ht & Hs)
       | [(d & h & a & ha & aa & p1 & p2 & p3 & p4 & p5 & p6 & p7 & p8 & p9 & p10
           & Ht & Hs)
         | (H13 & H15 & Hs)]];
    destruct (process_match_cases st text)
      as [(d' & h' & a' & ha' & aa' & q1 & q2 & q3 & q4 & q5 & q6 & q7 & q8
           & Ht' & Hs')
         | [(d' & h' & a' & ha' & aa' & q1 & q2 & q3 & q4 & q5 & q6 & q7 & q8
             & q9 & q10 & Ht' & Hs')
           | (H13' & H15' & Hs')]];
    try rewrite Ht in Ht'; try rewrite Ht in H13', H15';
    try rewrite Ht' in H13, H15; try discriminate;
    try (simpl in *; congruence).
  - injection Ht' as <- <- <- <- <- <- <- <- <- <- <- <- <-.
    rewrite Hs, Hs', process_fields_set_log.
    destruct (process_fields year_league state league st d h a ha aa
                             p1 p2 p3 p4 p5 p6 p7 p8 _ _); eauto.
  - injection Ht' as <- <- <- <- <- <- <- <- <- <- <- <- <- <- <-.
    rewrite Hs, Hs', process_fields_set_log.
    destruct (process_fields year_league state league st d h a ha aa
                             p1 p2 p3 p4 p5 p6 p7 p8 _ _); eauto.
  - rewrite Hs, Hs'. cbv beta iota. eexists. unfold set_log. simpl. reflexivity.
Qed.

Lemma replace_year_Ok dt y dt' :
  replace_year dt (PyInt y) = Ok dt' ->
  dt' = mk_datetime y (month dt) (day dt) (hour dt) (minute dt).
Proof.
  unfold replace_year, new_datetime.
  repeat match goal with
         | |- context [if ?b then _ else _] => destruct b; try discriminate
         end.
  congruence.
Qed.

(** A successful iteration either skipped an invalid block, logging it, or
    appended the record of a valid one. *)
Lemma process_match_Ok st text st' :
  process_match year_league state league st text = Ok st' ->
  (valid_block text = false /\
   st' = set_log (log st ++ [(ERROR, UnknownDiv (tokenize text))]) st) \/
  (valid_block text = true /\
   exists y row dt,
     dt_year st = PyInt y /\
     strptime (nth 0 (tokenize text) EmptyString) = Ok dt /\
     (last_month st =? 1) && (month dt =? 12) = false /\
     row_from year_league state league y text row /\
     st' = mk_state (df st ++ [row]) (month dt) (PyInt y) (log st)).
Proof.
  intros H.
  destruct (process_match_cases st text)
    as [(d & h & a & ha & aa & p1 & p2 & p3 & p4 & p5 & p6 & p7 & p8 & Ht & Hs)
       | [(d & h & a & ha & aa & p1 & p2 & p3 & p4 & p5 & p6 & p7 & p8 & p9 & p10
           & Ht & Hs)
         | (H13 & H15 & Hs)]].
  - right. rewrite Hs in H.
    apply process_fields_Ok in H
      as (dt & dt' & y & zh & za & z1 & z2 & z3 & z4 & z5 & z6 & z7 & z8 & z9 & z10
          & Hdt & Hroll & Hy & Hrep & Hh & Ha & H1 & H2 & H3 & H4 & H5 & H6
          & H7 & H8 & H9 & H10 & ->).
    apply replace_year_Ok in Hrep. subst dt'.
    split; [unfold valid_block; now rewrite Ht |].
    eexists y, _, dt. rewrite Ht. simpl nth.
    split; [assumption |]. split; [assumption |]. split; [assumption |].
    split; [| reflexivity].
    simpl in H9, H10. injection H9 as <-. injection H10 as <-.
    unfold row_from. rewrite Ht. simpl.
    repeat split; try assumption; try reflexivity; try discriminate.
    eexists; split; [eassumption | reflexivity].
  - right. rewrite Hs in H.
    apply process_fields_Ok in H
      as (dt & dt' & y & zh & za & z1 & z2 & z3 & z4 & z5 & z6 & z7 & z8 & z9 & z10
          & Hdt & Hroll & Hy & Hrep & Hh & Ha & H1 & H2 & H3 & H4 & H5 & H6
          & H7 & H8 & H9 & H10 & ->).
    apply replace_year_Ok in Hrep. subst dt'.
    split; [unfold valid_block; now rewrite Ht |].
    eexists y, _, dt. rewrite Ht. simpl nth.
    split; [assumption |]. split; [assumption |]. split; [assumption |].
    split; [| reflexivity].
    simpl in H9, H10.
    unfold row_from. rewrite Ht. simpl.
    repeat split; try assumption; try reflexivity; try discriminate.
    eexists; split; [eassumption | reflexivity].
  - left. rewrite Hs in H. injection H as <-.
    split; [| reflexivity].
    unfold valid_block.
    destruct (Nat.eqb_spec (length (tokenize text)) 13); [contradiction |].
    destruct (Nat.eqb_spec (length (tokenize text)) 15); [contradiction |].
    reflexivity.
Qed.

(** ** The loop *)

Lemma loop_app st l1 l2 :
  loop year_league state league st (l1 ++ l2) =
  match loop year_league state league st l1 with
  | (st', None) => loop year_league state league st' l2
  | (st', Some e) => (st', Some e)
  end.
Proof.
  revert st.
  induction l1 as [| text l1 IH]; intros st; simpl; [reflexivity |].
  destruct (process_match year_league state league st text); [apply IH | reflexivity].
Qed.

Lemma loop_set_log matches : forall l st,
  df (fst (loop year_league state league (set_log l st) matches))
  = df (fst (loop year_league state league st matches)) /\
  snd (loop year_league state league (set_log l st) matches)
  = snd (loop year_league state league st matches).
Proof.
  induction matches as [| text ms IH]; intros l st; simpl; [auto |].
  pose proof (process_match_set_log l st text) as H.
  destruct (process_match year_league state league st text) as [st' | e].
  - destruct H as [l' ->]. apply IH.
  - rewrite H. auto.
Qed.


(** Whatever ends the loop, every record appended is the record of a valid
    block of the page, in the year the loop started with. *)
Lemma loop_emitted matches : forall st y,
  dt_year st = PyInt y ->
  exists new,
    df (fst (loop year_league state league st matches)) = (df st ++ new)%list /\
    Forall (fun row => exists text,
                In text matches /\ valid_block text = true /\
                row_from year_league state league y text row) new.
Proof.
  induction matches as [| text ms IH]; intros st y Hy; simpl.
  - exists []. now rewrite app_nil_r.
  - destruct (process_match year_league state league st text) as [st' |] eqn:E.
    + apply process_match_Ok in E
        as [[_ ->] | (Hv & y' & row & dt & Hy' & _ & _ & Hrow & ->)].
      * destruct (IH (set_log (log st ++ [(ERROR, UnknownDiv (tokenize text))]) st) y Hy)
          as (new & Hnew & Hall).
        exists new. split; [exact Hnew |].
        eapply Forall_impl; [| exact Hall].
        intros row (t & Ht & Hr). exists t. tauto.
      * rewrite Hy in Hy'. injection Hy' as <-.
        destruct (IH (mk_state (df st ++ [row]) (month dt) (PyInt y) (log st)) y eq_refl)
          as (new & Hnew & Hall).
        exists (row :: new). simpl in Hnew. rewrite Hnew, <- app_assoc.
        split; [reflexivity |].
        constructor.
        -- exists text. tauto.
        -- eapply Forall_impl; [| exact Hall].
           intros row' (t & Ht & Hr). exists t. tauto.
    + exists []. now rewrite app_nil_r.
Qed.


End Iteration.

(** ** The tokenizer *)

Lemma split_not_nil sep s : split sep s <> [].
Proof.
  destruct s as [| c s]; simpl; [discriminate |].
  destruct (Ascii.eqb c sep); [discriminate |].
  destruct (split sep s); discriminate.
Qed.

Lemma join_cons sep t l :
  l <> [] -> join sep (t :: l) = t ++ String sep (join sep l).
Proof.
  destruct l; [contradiction | reflexivity].
Qed.

Lemma join_push sep c t l :
  join sep (String c t :: l) = String c (join sep (t :: l)).
Proof.
  destruct l; reflexivity.
Qed.

Lemma join_split sep s : join sep (split sep s) = s.
Proof.
  induction s as [| c s IH]; simpl; [reflexivity |].
  destruct (Ascii.eqb_spec c sep) as [-> | Hc].
  - rewrite join_cons by apply split_not_nil. simpl. now rewrite IH.
  - destruct (split sep s) as [| t ts] eqn:E.
    + now apply split_not_nil in E.
    + rewrite join_push. now rewrite IH.
Qed.

Lemma split_sep_free sep s :
  Forall (fun t => has_char sep t = false) (split sep s).
Proof.
  induction s as [| c s IH]; simpl.
  - constructor; [reflexivity | constructor].
  - destruct (Ascii.eqb_spec c sep) as [-> | Hc].
    + constructor; [reflexivity | assumption].
    + destruct (split sep s) as [| t ts]; simpl.
      * constructor; [| constructor]. simpl.
        apply Ascii.eqb_neq in Hc. now rewrite Hc.
      * inversion IH as [| ? ? Ht Hts]; subst.
        constructor; [| assumption]. simpl.
        apply Ascii.eqb_neq in Hc. now rewrite Hc.
Qed.

(** The two facts above determine the split: it is the only non-empty list
    of separator-free pieces that joins back to the text. *)
Lemma split_join sep l :
  l <> [] -> Forall (fun t => has_char sep t = false) l ->
  split sep (join sep l) = l.
Proof.
  induction l as [| t l IH]; intros Hne Hall; [contradiction |].
  inversion Hall as [| ? ? Ht Hl]; subst.
  destruct l as [| u l].
  - simpl. clear IH Hall Hl Hne.
    induction t as [| c t IHt]; simpl in *; [reflexivity |].
    apply orb_false_iff in Ht as [Hc Ht].
    rewrite Hc, (IHt Ht). reflexivity.
  - rewrite join_cons by discriminate.
    assert (IH' : split sep (join sep (u :: l)) = u :: l)
      by (apply IH; [discriminate | assumption]).
    clear IH Hall Hl Hne.
    induction t as [| c t IHt]; simpl in *.
    + rewrite Ascii.eqb_refl. now rewrite IH'.
    + apply orb_false_iff in Ht as [Hc Ht].
      rewrite Hc, (IHt Ht). reflexivity.
Qed.

Lemma contains_In x l : contains x l = true <-> In x l.
Proof.
  induction l as [| y l IH]; simpl; [split; [discriminate | tauto] |].
  rewrite orb_true_iff, IH, String.eqb_eq. tauto.
Qed.

Lemma remove_first x l :
  contains x l = true ->
  exists l1 l2, l = (l1 ++ x :: l2)%list /\ ~ In x l1 /\ remove x l = (l1 ++ l2)%list.
Proof.
  induction l as [| y l IH]; simpl; [discriminate |].
  destruct (String.eqb_spec y x) as [-> | Hy]; simpl.
  - intros _. exists [], l. simpl. tauto.
  - intros H. destruct (IH H) as (l1 & l2 & -> & Hn & ->).
    exists (y :: l1), l2. simpl. repeat split; try reflexivity.
    intros [E | E]; [contradiction | now apply Hn].
Qed.

(** C6: for every raw text, the tokens are the pieces of the text between
    its line breaks, in order (the line-break-free pieces that join back to
    the text), with the first token equal to "AOT" taken out when there is
    one and nothing else changed. *)
Theorem C6_tokenize_is_split_without_AOT (text : string) :
  let pieces := split nl text in
  join nl pieces = text /\
  Forall (fun t => has_char nl t = false) pieces /\
  if contains "AOT" pieces
  then exists l1 l2,
         pieces = (l1 ++ "AOT" :: l2)%list /\ ~ In "AOT" l1 /\
         tokenize text = (l1 ++ l2)%list
  else ~ In "AOT" pieces /\ tokenize text = pieces.
Proof.
  intros pieces. split; [apply join_split |]. split; [apply split_sep_free |].
  unfold tokenize. fold pieces.
  destruct (contains "AOT" pieces) eqn:E.
  - apply remove_first in E as (l1 & l2 & H1 & H2 & H3). now exists l1, l2.
  - split; [| reflexivity]. intros H. apply contains_In in H. congruence.
Qed.

(** ** The date token *)

Lemma index_has_char c s :
  has_char c s = true -> exists i, index c s = Ok i.
Proof.
  induction s as [| d s IH]; simpl; [discriminate |].
  destruct (Ascii.eqb d c); simpl; [now exists O |].
  intros H. destruct (IH H) as [i ->]. simpl. now exists (S i).
Qed.

(** C9: for every date string with a space in it, [index] finds the space
    and cutting the string there and gluing the two parts gives the string
    back, so [strptime] reads the original token. *)
Theorem C9_split_at_space_is_identity (date_str : string) :
  has_char " " date_str = true ->
  exists index_space,
    index " " date_str = Ok index_space /\
    slice_to index_space date_str ++ slice_from index_space date_str = date_str /\
    strptime (slice_to index_space date_str ++ slice_from index_space date_str)
      = strptime date_str.
Proof.
  intros H. destruct (index_has_char _ _ H) as [i Hi].
  exists i. rewrite slice_to_from. auto.
Qed.

Lemma C9_split_at_space_witness :
  exists index_space,
    index " " "01.12. 18:00" = Ok index_space /\
    slice_to index_space "01.12. 18:00" ++ slice_from index_space "01.12. 18:00"
      = "01.12. 18:00" /\
    strptime (slice_to index_space "01.12. 18:00"
              ++ slice_from index_space "01.12. 18:00")
      = strptime "01.12. 18:00".
Proof.
  apply (C9_split_at_space_is_identity "01.12. 18:00"). reflexivity.
Defined.

(** ** The whole call *)

Lemma rows_of_summarize self url p : rows_of (summarize self url p) = df (fst p).
Proof.
  destruct p as [st [e |]]; reflexivity.
Qed.

Lemma raised_summarize self url p : raised (summarize self url p) = snd p.
Proof.
  destruct p as [st [e |]]; reflexivity.
Qed.

Lemma call_Ok self matches url year_league state league y :
  int_str (slice_from 5 year_league) = Ok y ->
  _get_flashscore_data self matches url year_league state league =
  summarize (mk_DataAcquisition (fpath self) (Some [])) url
            (loop year_league state league (mk_state [] (-1) (PyInt y) []) matches).
Proof.
  intros Hy. unfold _get_flashscore_data. cbn [int]. now rewrite Hy.
Qed.

Lemma call_Raise self matches url year_league state league e :
  int_str (slice_from 5 year_league) = Raise e ->
  _get_flashscore_data self matches url year_league state league =
  mk_outcome (mk_DataAcquisition (fpath self) (Some [])) [] (Some e).
Proof.
  intros Hy. unfold _get_flashscore_data. cbn [int]. now rewrite Hy.
Qed.

(** The year every record of a call carries: the one read from the label
    before the loop. *)
Lemma rows_keep_end_year self matches url year_league state league y :
  int_str (slice_from 5 year_league) = Ok y ->
  Forall (fun row => year (DT row) = y)
         (rows_of (_get_flashscore_data self matches url year_league state league)).
Proof.
  intros Hy. rewrite (call_Ok _ _ _ _ _ _ _ Hy), rows_of_summarize.
  destruct (loop_emitted year_league state league matches
              (mk_state [] (-1) (PyInt y) []) y eq_refl) as (new & -> & Hall).
  simpl. eapply Forall_impl; [| exact Hall].
  intros row (text & _ & _ & (_ & _ & _ & (dt & _ & ->) & _)). reflexivity.
Qed.

(** When the rollover test of line 161 fires, line 166 raises. *)
Lemma rollover_raises year_league state league st
      date_str home away h_all a_all h14 a14 h24 a24 h34 a34 h44 a44 h54 a54 i dt :
  index " " date_str = Ok i ->
  strptime date_str = Ok dt ->
  last_month st = 1 -> month dt = 12 ->
  process_fields year_league state league st date_str home away h_all a_all
                 h14 a14 h24 a24 h34 a34 h44 a44 h54 a54 = Raise TypeError.
Proof.
  intros Hi Hdt Hl Hm. unfold process_fields.
  rewrite Hi. simpl. rewrite slice_to_from, Hdt. simpl.
  rewrite Hl, Hm. reflexivity.
Qed.

(** C1: the winner is taken from the order of the two score tokens as text.
    For the element of a 100:99 home win the call emits the scores 100 and
    99 as integers and the winner "away". *)
Theorem C1_winner_compares_tokens_as_text :
  map (fun row => (Home_points row, Away_points row, Winner row))
      (rows_of (_get_flashscore_data acq [jan_block] "url" "2022-2023" "USA" "NBA"))
  = [(100, 99, "away")].
Proof. reflexivity. Qed.

(** C2: with the label "2022-2023", a January element followed by a
    December element: the January record is emitted in 2023; at the
    December element the tracked year becomes the text "2022", the
    [replace] raises a [TypeError] and the call ends without a December
    record. *)
Theorem C2_rollover_ends_the_call :
  let o := _get_flashscore_data acq [jan_block; dec_block]
                                "url" "2022-2023" "USA" "NBA" in
  map (fun row => (year (DT row), month (DT row))) (rows_of o) = [(2023, 1)] /\
  raised o = Some TypeError.
Proof. split; reflexivity. Qed.


(** A valid block with a score token that [int] rejects makes the iteration
    raise. *)
Lemma process_match_bad_score year_league state league st text t :
  valid_block text = true ->
  In t (skipn 3 (tokenize text)) ->
  int_str t = Raise ValueError ->
  exists e, process_match year_league state league st text = Raise e.
Proof.
  intros Hv Hin Ht.
  destruct (process_match year_league state league st text) as [st' | e] eqn:E;
    [exfalso | now exists e].
  apply process_match_Ok in E
    as [[Hv' _] | (_ & y & row & dt & _ & _ & _ & Hrow & _)]; [congruence |].
  unfold row_from, valid_block in *.
  destruct (tokenize text)
    as [| t0 [| t1 [| t2 [| t3 [| t4 [| t5 [| t6 [| t7 [| t8 [| t9 [| t10
       [| t11 [| t12 [| t13 [| t14 [| t15 l]]]]]]]]]]]]]]]];
    simpl in Hv; try discriminate;
    simpl in Hrow, Hin;
    destruct Hrow as (_ & _ & _ & _ & _ & _ & _ & R3 & R4 & R5 & R6 & R7 & R8
                      & R9 & R10 & R11 & R12 & _ & R15).
  - repeat (destruct Hin as [<- | Hin]; [congruence |]). exact Hin.
  - destruct (R15 eq_refl) as [R13 R14].
    repeat (destruct Hin as [<- | Hin]; [congruence |]). exact Hin.
Qed.

(** C3 (as amended): a block of 13 or 15 tokens with a score token that
    [int] rejects makes its iteration raise, and nothing catches it: the
    loop ends there, the call raises, and the table holds exactly the rows of
    the blocks before it, whatever follows. *)
Theorem C3_bad_score_ends_the_call
    (self : DataAcquisition) (pre post : list string) (text t : string)
    (url year_league state league : string) :
  valid_block text = true ->
  In t (skipn 3 (tokenize text)) ->
  int_str t = Raise ValueError ->
  (forall st, exists e,
      process_match year_league state league st text = Raise e /\
      loop year_league state league st (text :: post) = (st, Some e)) /\
  let o := _get_flashscore_data self (pre ++ text :: post)
                                url year_league state league in
  raised o <> None /\
  rows_of o = rows_of (_get_flashscore_data self pre url year_league state league).
Proof.
  intros Hv Hin Ht.
  assert (Hstep : forall st, exists e,
             process_match year_league state league st text = Raise e /\
             loop year_league state league st (text :: post) = (st, Some e)).
  { intros st.
    destruct (process_match_bad_score year_league state league st text t Hv Hin Ht)
      as [e He].
    exists e. split; [exact He |]. simpl. now rewrite He. }
  split; [exact Hstep |].
  destruct (int_str_total (slice_from 5 year_league)) as [Hy | [y Hy]].
  - rewrite !(call_Raise _ _ _ _ _ _ _ Hy). simpl. split; [discriminate | reflexivity].
  - rewrite !(call_Ok _ _ _ _ _ _ _ Hy). cbv zeta.
    rewrite raised_summarize, !rows_of_summarize, loop_app.
    destruct (loop year_league state league (mk_state [] (-1) (PyInt y) []) pre)
      as [st1 [e |]].
    + simpl. split; [discriminate | reflexivity].
    + destruct (Hstep st1) as (e & _ & ->). simpl. split; [discriminate | reflexivity].
Qed.

Lemma C3_bad_score_witness :
  (forall st, exists e,
      process_match "2022-2023" "USA" "NBA" st dash_block = Raise e /\
      loop "2022-2023" "USA" "NBA" st (dash_block :: [overtime_block]) = (st, Some e)) /\
  let o := _get_flashscore_data acq ([dec_block] ++ dash_block :: [overtime_block])
                                "url" "2022-2023" "USA" "NBA" in
  raised o <> None /\
  rows_of o = rows_of (_get_flashscore_data acq [dec_block]
                                            "url" "2022-2023" "USA" "NBA").
Proof.
  apply (C3_bad_score_ends_the_call acq [dec_block] [overtime_block] dash_block "-").
  - reflexivity.
  - simpl. tauto.
  - reflexivity.
Defined.

(** C3 (as stated) fails: the 13-token block with "-" for a period score is
    not skipped. Its [ValueError] leaves the loop and the call; the
    overtime block after it, which yields a row when the block with the dash
    is not there, yields none. *)
Lemma C3_bad_score_is_not_skipped :
  let run := fun page => _get_flashscore_data acq page "url" "2022-2023" "USA" "NBA" in
  length (tokenize dash_block) = 13%nat /\
  int_str "-" = Raise ValueError /\
  raised (run [dec_block; dash_block; overtime_block]) = Some ValueError /\
  length (rows_of (run [dec_block; dash_block; overtime_block])) = 1%nat /\
  length (rows_of (run [dec_block; overtime_block])) = 2%nat.
Proof. repeat split. Qed.








(** C8: what a call leaves (rows, log entries, exception) is a function of
    the page, the label, the state and the league alone: it is the same from
    any two objects, whatever table they held before, and so the same when
    the call is repeated on the object the first call left. *)
Theorem C8_call_is_deterministic
    (self1 self2 : DataAcquisition) (matches : list string)
    (url year_league state league : string) :
  let o1 := _get_flashscore_data self1 matches url year_league state league in
  let o2 := _get_flashscore_data self2 matches url year_league state league in
  rows_of o1 = rows_of o2 /\ logged o1 = logged o2 /\ raised o1 = raised o2 /\
  rows_of (_get_flashscore_data (self_after o1) matches
                                url year_league state league) = rows_of o1.
Proof.
  cbv zeta.
  destruct (int_str_total (slice_from 5 year_league)) as [Hy | [y Hy]].
  - rewrite !(call_Raise _ _ _ _ _ _ _ Hy). simpl. auto.
  - rewrite !(call_Ok _ _ _ _ _ _ _ Hy), !rows_of_summarize, !raised_summarize.
    destruct (loop year_league state league (mk_state [] (-1) (PyInt y) []) matches)
      as [st [e |]]; simpl; auto.
Qed.

(** ** The year read from the label *)


Lemma digit_not_blank (c : ascii) : is_digit c = true -> is_space c = false.
Proof.
  unfold is_digit, is_space. intros H.
  apply andb_true_iff in H as [H1 H2].
  apply Nat.leb_le in H1. apply Nat.leb_le in H2.
  destruct (Nat.leb_spec 9 (nat_of_ascii c)); simpl;
    destruct (Nat.leb_spec (nat_of_ascii c) 13); simpl;
    destruct (Nat.eqb_spec (nat_of_ascii c) 32); simpl; try reflexivity; lia.
Qed.

Lemma digit_not_char (c d : ascii) :
  is_digit c = true -> is_digit d = false -> Ascii.eqb c d = false.
Proof.
  intros Hc Hd. destruct (Ascii.eqb_spec c d) as [-> |]; congruence.
Qed.

Lemma parse_int_digit_first (c : ascii) (r : string) :
  is_digit c = true ->
  parse_int (String c r) =
  match scan_digits (String c r) false 0 0 with
  | None => None
  | Some (v, n, rest) =>
      if n =? 0 then None
      else if int_max_str_digits <? n then None
      else match lstrip rest with
           | EmptyString => Some (1 * v)
           | String _ _ => None
           end
  end.
Proof.
  intros H. unfold parse_int. cbn [lstrip].
  rewrite (digit_not_blank _ H).
  rewrite !(digit_not_char c _ H) by reflexivity.
  reflexivity.
Qed.








(** * Further properties of the loop *)

(** ** The log *)

Lemma loop_log year_league state league matches : forall st st',
  loop year_league state league st matches = (st', None) ->
  log st' = (log st ++ skip_entries matches)%list.
Proof.
  induction matches as [| text ms IH]; intros st st' H; simpl in H.
  - injection H as <-. unfold skip_entries. simpl. now rewrite app_nil_r.
  - destruct (process_match year_league state league st text) as [st1 |] eqn:E;
      [| discriminate].
    apply IH in H. rewrite H. unfold skip_entries. simpl.
    apply process_match_Ok in E
      as [[Hv ->] | (Hv & y & row & dt & _ & _ & _ & _ & ->)];
      rewrite Hv; simpl.
    + now rewrite <- app_assoc.
    + reflexivity.
Qed.

Lemma loop_length year_league state league matches : forall st st',
  loop year_league state league st matches = (st', None) ->
  length (df st') = (length (df st) + length (filter valid_block matches))%nat.
Proof.
  induction matches as [| text ms IH]; intros st st' H; simpl in H.
  - injection H as <-. simpl. lia.
  - destruct (process_match year_league state league st text) as [st1 |] eqn:E;
      [| discriminate].
    apply IH in H. rewrite H. simpl.
    apply process_match_Ok in E
      as [[Hv ->] | (Hv & y & row & dt & _ & _ & _ & _ & ->)];
      rewrite Hv; simpl.
    + reflexivity.
    + rewrite length_app. simpl. lia.
Qed.

(** The log of a call that ends normally: one ERROR entry for each block
    that is not valid, in page order, then the summary, which counts the
    valid blocks or reports that there was none. *)
Theorem log_of_a_normal_call
    (self : DataAcquisition) (matches : list string)
    (url year_league state league : string) :
  let o := _get_flashscore_data self matches url year_league state league in
  raised o = None ->
  logged o =
  (skip_entries matches
     ++ [summary_entry (length (filter valid_block matches)) url])%list /\
  length (rows_of o) = length (filter valid_block matches).
Proof.
  cbv zeta.
  destruct (int_str_total (slice_from 5 year_league)) as [Hy | [y Hy]].
  - rewrite (call_Raise _ _ _ _ _ _ _ Hy). discriminate.
  - rewrite (call_Ok _ _ _ _ _ _ _ Hy).
    destruct (loop year_league state league (mk_state [] (-1) (PyInt y) []) matches)
      as [st' r] eqn:E.
    destruct r as [e |]; simpl; [discriminate |]. intros _.
    unfold rows_of. simpl.
    rewrite (loop_log _ _ _ _ _ _ E), (loop_length _ _ _ _ _ _ E). simpl.
    split; reflexivity.
Qed.

Lemma log_of_a_normal_call_witness :
  logged (_get_flashscore_data acq [dec_block; short_block; overtime_block]
                               "url" "2022-2023" "USA" "NBA") =
  (skip_entries [dec_block; short_block; overtime_block]
     ++ [summary_entry
           (length (filter valid_block [dec_block; short_block; overtime_block]))
           "url"])%list /\
  length (rows_of (_get_flashscore_data acq [dec_block; short_block; overtime_block]
                                        "url" "2022-2023" "USA" "NBA")) =
  length (filter valid_block [dec_block; short_block; overtime_block]).
Proof.
  apply (log_of_a_normal_call acq [dec_block; short_block; overtime_block]
           "url" "2022-2023" "USA" "NBA").
  reflexivity.
Defined.

(** ** The first block that raises decides *)

Lemma loop_raise_split year_league state league matches : forall st st' e,
  loop year_league state league st matches = (st', Some e) ->
  exists pre text post,
    matches = (pre ++ text :: post)%list /\
    loop year_league state league st pre = (st', None) /\
    process_match year_league state league st' text = Raise e.
Proof.
  induction matches as [| text ms IH]; intros st st' e H; simpl in H;
    [discriminate |].
  destruct (process_match year_league state league st text) as [st1 | e1] eqn:E.
  - apply IH in H as (pre & t & post & -> & Hpre & Ht).
    exists (text :: pre), t, post. simpl. rewrite E. auto.
  - injection H as <- <-. exists [], text, ms. auto.
Qed.

(** A call that raised is decided by the blocks up to the one that raised:
    whatever the page holds after them, the rows, the log and the exception
    are the same. *)
Theorem nothing_after_a_raise_matters
    (self : DataAcquisition) (matches extra : list string)
    (url year_league state league : string) (e : exn) :
  let o := _get_flashscore_data self matches url year_league state league in
  let o' := _get_flashscore_data self (matches ++ extra)
                                 url year_league state league in
  raised o = Some e ->
  rows_of o' = rows_of o /\ logged o' = logged o /\ raised o' = Some e.
Proof.
  cbv zeta.
  destruct (int_str_total (slice_from 5 year_league)) as [Hy | [y Hy]].
  - rewrite !(call_Raise _ _ _ _ _ _ _ Hy). simpl. auto.
  - rewrite !(call_Ok _ _ _ _ _ _ _ Hy), loop_app.
    destruct (loop year_league state league (mk_state [] (-1) (PyInt y) []) matches)
      as [st' [e' |]]; simpl; [| discriminate].
    intros H. injection H as ->. auto.
Qed.

Lemma nothing_after_a_raise_witness :
  rows_of (_get_flashscore_data acq ([dec_block; dash_block] ++ [overtime_block])
                                "url" "2022-2023" "USA" "NBA")
  = rows_of (_get_flashscore_data acq [dec_block; dash_block]
                                  "url" "2022-2023" "USA" "NBA") /\
  logged (_get_flashscore_data acq ([dec_block; dash_block] ++ [overtime_block])
                               "url" "2022-2023" "USA" "NBA")
  = logged (_get_flashscore_data acq [dec_block; dash_block]
                                 "url" "2022-2023" "USA" "NBA") /\
  raised (_get_flashscore_data acq ([dec_block; dash_block] ++ [overtime_block])
                               "url" "2022-2023" "USA" "NBA")
  = Some ValueError.
Proof.
  apply (nothing_after_a_raise_matters acq [dec_block; dash_block] [overtime_block]
           "url" "2022-2023" "USA" "NBA" ValueError).
  reflexivity.
Defined.

(** ** Dates *)

Lemma new_datetime_Ok y m d hh mm dt :
  new_datetime y m d hh mm = Ok dt ->
  dt = mk_datetime y m d hh mm /\
  (MINYEAR <= y <= MAXYEAR) /\ (1 <= m <= 12) /\
  (1 <= d <= days_in_month y m) /\ (0 <= hh <= 23) /\ (0 <= mm <= 59).
Proof.
  unfold new_datetime.
  destruct ((MINYEAR <=? y) && (y <=? MAXYEAR)) eqn:E1; simpl; [| discriminate].
  destruct ((1 <=? m) && (m <=? 12)) eqn:E2; simpl; [| discriminate].
  destruct ((1 <=? d) && (d <=? days_in_month y m)) eqn:E3; simpl; [| discriminate].
  destruct ((0 <=? hh) && (hh <=? 23)) eqn:E4; simpl; [| discriminate].
  destruct ((0 <=? mm) && (mm <=? 59)) eqn:E5; simpl; [| discriminate].
  intros H. injection H as <-.
  apply andb_true_iff in E1, E2, E3, E4, E5.
  rewrite !Z.leb_le in *. tauto.
Qed.

Lemma new_datetime_in_range y m d hh mm :
  MINYEAR <= y <= MAXYEAR -> 1 <= m <= 12 ->
  1 <= d <= days_in_month y m -> 0 <= hh <= 23 -> 0 <= mm <= 59 ->
  new_datetime y m d hh mm = Ok (mk_datetime y m d hh mm).
Proof.
  intros Hy Hm Hd Hh Hmi. unfold new_datetime.
  replace ((MINYEAR <=? y) && (y <=? MAXYEAR)) with true
    by (symmetry; apply andb_true_iff; rewrite !Z.leb_le; lia).
  replace ((1 <=? m) && (m <=? 12)) with true
    by (symmetry; apply andb_true_iff; rewrite !Z.leb_le; lia).
  replace ((1 <=? d) && (d <=? days_in_month y m)) with true
    by (symmetry; apply andb_true_iff; rewrite !Z.leb_le; lia).
  replace ((0 <=? hh) && (hh <=? 23)) with true
    by (symmetry; apply andb_true_iff; rewrite !Z.leb_le; lia).
  replace ((0 <=? mm) && (mm <=? 59)) with true
    by (symmetry; apply andb_true_iff; rewrite !Z.leb_le; lia).
  reflexivity.
Qed.

Lemma new_datetime_raises y m d hh mm e :
  new_datetime y m d hh mm = Raise e -> e = ValueError.
Proof.
  unfold new_datetime.
  repeat match goal with
         | |- context [if ?b then _ else _] => destruct b
         end; congruence.
Qed.


Lemma strptime_Ok s dt :
  strptime s = Ok dt ->
  year dt = 1900 /\ (1 <= month dt <= 12) /\
  (1 <= day dt <= days_in_month 1900 (month dt)) /\
  (0 <= hour dt <= 23) /\ (0 <= minute dt <= 59).
Proof.
  unfold strptime.
  destruct (format_matches s) as [| [[[[d m] H] M] rest] l]; [discriminate |].
  destruct rest; [| discriminate].
  intros E.
  apply bind_Ok_inv in E as (dd & _ & E).
  apply bind_Ok_inv in E as (mo & _ & E).
  apply bind_Ok_inv in E as (hh & _ & E).
  apply bind_Ok_inv in E as (mi & _ & E).
  apply new_datetime_Ok in E as (-> & _ & ? & ? & ? & ?). simpl. tauto.
Qed.

Lemma strptime_raises s e : strptime s = Raise e -> e = ValueError.
Proof.
  unfold strptime.
  destruct (format_matches s) as [| [[[[d m] H] M] rest] l]; [congruence |].
  destruct rest; [| congruence].
  destruct (int_str d) as [dd | e1] eqn:E1; simpl;
    [| intros [= <-]; now apply int_str_raises in E1].
  destruct (int_str m) as [mo | e2] eqn:E2; simpl;
    [| intros [= <-]; now apply int_str_raises in E2].
  destruct (int_str H) as [hh | e3] eqn:E3; simpl;
    [| intros [= <-]; now apply int_str_raises in E3].
  destruct (int_str M) as [mi | e4] eqn:E4; simpl;
    [| intros [= <-]; now apply int_str_raises in E4].
  apply new_datetime_raises.
Qed.

Lemma index_raises c s e : index c s = Raise e -> e = ValueError.
Proof.
  induction s as [| d s IH]; simpl; [congruence |].
  destruct (Ascii.eqb d c); [discriminate |].
  destruct (index c s); simpl; [discriminate |].
  intros [= <-]. now apply IH.
Qed.

Lemma int_raises v e : int v = Raise e -> e = ValueError.
Proof.
  destruct v; simpl; [apply int_str_raises | discriminate].
Qed.


Lemma replace_year_int_Ok dt y dt' :
  replace_year dt (PyInt y) = Ok dt' ->
  MINYEAR <= y <= MAXYEAR /\ day dt <= days_in_month y (month dt).
Proof.
  unfold replace_year.
  destruct (negb ((- 2 ^ 31 <=? y) && (y <? 2 ^ 31))); [discriminate |].
  intros H. apply new_datetime_Ok in H. tauto.
Qed.

Lemma replace_year_int_raises dt y e :
  replace_year dt (PyInt y) = Raise e ->
  e = ValueError \/ (e = OverflowError /\ ~ (- 2 ^ 31 <= y < 2 ^ 31)).
Proof.
  unfold replace_year.
  destruct ((- 2 ^ 31 <=? y) && (y <? 2 ^ 31)) eqn:E; simpl.
  - intros H. left. now apply new_datetime_raises in H.
  - intros [= <-]. right. split; [reflexivity |].
    intros [H1 H2]. apply andb_false_iff in E as [E | E].
    + apply Z.leb_gt in E. lia.
    + apply Z.ltb_ge in E. lia.
Qed.

Lemma process_match_Ok_year year_league state league st text st' :
  process_match year_league state league st text = Ok st' ->
  valid_block text = true ->
  exists y, dt_year st = PyInt y /\ MINYEAR <= y <= MAXYEAR.
Proof.
  intros H Hv.
  destruct (process_match_cases year_league state league st text)
    as [(d & h & a & ha & aa & p1 & p2 & p3 & p4 & p5 & p6 & p7 & p8 & _ & Hs)
       | [(d & h & a & ha & aa & p1 & p2 & p3 & p4 & p5 & p6 & p7 & p8 & p9 & p10
           & _ & Hs)
         | (H13 & H15 & _)]].
  - rewrite Hs in H.
    apply process_fields_Ok in H
      as (dt & dt' & y & zh & za & z1 & z2 & z3 & z4 & z5 & z6 & z7 & z8 & z9 & z10
          & _ & _ & Hy & Hrep & _).
    exists y. split; [exact Hy |]. now apply replace_year_int_Ok in Hrep.
  - rewrite Hs in H.
    apply process_fields_Ok in H
      as (dt & dt' & y & zh & za & z1 & z2 & z3 & z4 & z5 & z6 & z7 & z8 & z9 & z10
          & _ & _ & Hy & Hrep & _).
    exists y. split; [exact Hy |]. now apply replace_year_int_Ok in Hrep.
  - unfold valid_block in Hv. apply orb_true_iff in Hv as [Hv | Hv];
      apply Nat.eqb_eq in Hv; contradiction.
Qed.

Lemma loop_year_range year_league state league matches : forall st y,
  dt_year st = PyInt y ->
  df (fst (loop year_league state league st matches)) <> df st ->
  MINYEAR <= y <= MAXYEAR.
Proof.
  induction matches as [| text ms IH]; intros st y Hy Hne; simpl in Hne.
  - contradiction.
  - destruct (process_match year_league state league st text) as [st1 |] eqn:E;
      [| contradiction].
    pose proof E as E'.
    apply process_match_Ok in E'
      as [[Hv ->] | (Hv & y' & row & dt & Hy' & _ & _ & _ & ->)].
    + apply (IH (set_log (log st ++ [(ERROR, UnknownDiv (tokenize text))]) st) y);
        [exact Hy | exact Hne].
    + destruct (process_match_Ok_year _ _ _ _ _ _ E Hv) as (y2 & Hy2 & Hr).
      congruence.
Qed.

Lemma row_date_facts
    (self : DataAcquisition) (matches : list string)
    (url year_league state league : string) (row : Row) :
  In row (rows_of (_get_flashscore_data self matches url year_league state league)) ->
  int_str (slice_from 5 year_league) = Ok (year (DT row)) /\
  (MINYEAR <= year (DT row) <= MAXYEAR) /\
  (1 <= month (DT row) <= 12) /\
  (1 <= day (DT row) <= days_in_month 1900 (month (DT row))) /\
  (0 <= hour (DT row) <= 23) /\ (0 <= minute (DT row) <= 59) /\
  ~ (month (DT row) = 2 /\ day (DT row) = 29).
Proof.
  destruct (int_str_total (slice_from 5 year_league)) as [Hy | [y Hy]].
  - rewrite (call_Raise _ _ _ _ _ _ _ Hy). simpl. contradiction.
  - rewrite (call_Ok _ _ _ _ _ _ _ Hy), rows_of_summarize.
    pose proof (loop_year_range year_league state league matches
                  (mk_state [] (-1) (PyInt y) []) y eq_refl) as Hrange.
    destruct (loop_emitted year_league state league matches
                (mk_state [] (-1) (PyInt y) []) y eq_refl) as (new & Hnew & Hall).
    rewrite Hnew in *. simpl in *. intros Hin.
    assert (Hr : MINYEAR <= y <= MAXYEAR).
    { apply Hrange. intros ->. contradiction. }
    rewrite Forall_forall in Hall.
    destruct (Hall row Hin) as (text & _ & _ & (_ & _ & _ & (dt & Hdt & ->) & _)).
    apply strptime_Ok in Hdt as (_ & Hm & Hd & Hh & Hmi). simpl.
    repeat split; try tauto; try lia.
    intros [H2 H29]. rewrite H2 in Hd. change (days_in_month 1900 2) with 28 in Hd. lia.
Qed.

(** Every row of the table carries a valid date and time: the year is the
    end year of the label and lies between 1 and 9999, and day and month are
    a date of the year 1900, which was not leap; so no row is ever dated
    29 February, in any season. *)
Theorem emitted_dates_are_dates_of_1900
    (self : DataAcquisition) (matches : list string)
    (url year_league state league : string) (row : Row) :
  In row (rows_of (_get_flashscore_data self matches url year_league state league)) ->
  int_str (slice_from 5 year_league) = Ok (year (DT row)) /\
  (MINYEAR <= year (DT row) <= MAXYEAR) /\
  (1 <= month (DT row) <= 12) /\
  (1 <= day (DT row) <= days_in_month 1900 (month (DT row))) /\
  (0 <= hour (DT row) <= 23) /\ (0 <= minute (DT row) <= 59) /\
  ~ (month (DT row) = 2 /\ day (DT row) = 29).
Proof.
  apply row_date_facts.
Qed.

Lemma emitted_dates_witness :
  int_str (slice_from 5 "2022-2023") = Ok 2023 /\
  (MINYEAR <= 2023 <= MAXYEAR) /\
  (1 <= 12 <= 12) /\
  (1 <= 1 <= days_in_month 1900 12) /\
  (0 <= 18 <= 23) /\ (0 <= 0 <= 59) /\
  ~ (12 = 2 /\ 1 = 29).
Proof.
  apply (emitted_dates_are_dates_of_1900 acq [dec_block]
           "url" "2022-2023" "USA" "NBA"
           (mk_Row "USA" "NBA" "2022-2023" (mk_datetime 2023 12 1 18 0)
                   "TeamA" "TeamB" "home" 90 85 20 18 25 20 25 24 20 23 0 0)).
  vm_compute. left. reflexivity.
Defined.

(** When the end year of the label is not a year from 1 to 9999, no block
    ever yields a row. *)
Theorem no_row_outside_the_year_range
    (self : DataAcquisition) (matches : list string)
    (url year_league state league : string) (y : Z) :
  int_str (slice_from 5 year_league) = Ok y ->
  ~ (MINYEAR <= y <= MAXYEAR) ->
  rows_of (_get_flashscore_data self matches url year_league state league) = [].
Proof.
  intros Hy Hout.
  destruct (rows_of (_get_flashscore_data self matches url year_league state league))
    as [| row l] eqn:E; [reflexivity | exfalso].
  destruct (row_date_facts self matches url year_league state league row)
    as (Hy' & Hr & _).
  - rewrite E. now left.
  - rewrite Hy in Hy'. injection Hy' as ->. contradiction.
Qed.

Lemma no_row_outside_the_year_range_witness :
  rows_of (_get_flashscore_data acq [dec_block; overtime_block]
                                "url" "2022-0000" "USA" "NBA") = [].
Proof.
  apply (no_row_outside_the_year_range acq [dec_block; overtime_block]
           "url" "2022-0000" "USA" "NBA" 0).
  - reflexivity.
  - unfold MINYEAR, MAXYEAR. lia.
Defined.

(** ** The month tracking and the rollover *)

Section Tracking.

Variables year_league state league : string.

Lemma process_match_tracks st text st' :
  process_match year_league state league st text = Ok st' ->
  tracks_last_row st -> tracks_last_row st'.
Proof.
  intros E Ht.
  apply process_match_Ok in E
    as [[_ ->] | (_ & y & row & dt & _ & Hdt & _ & Hrow & ->)].
  - exact Ht.
  - unfold tracks_last_row. simpl. rewrite rev_unit.
    destruct Hrow as (_ & _ & _ & (dt0 & Hdt0 & ->) & _). simpl.
    congruence.
Qed.

Lemma no_rollover_pair_snoc rows row :
  no_rollover_pair rows ->
  (forall l r, rows = (l ++ [r])%list ->
               ~ (month (DT r) = 1 /\ month (DT row) = 12)) ->
  no_rollover_pair (rows ++ [row]).
Proof.
  intros Hrows Hlast l1 r1 r2 l2 E.
  destruct l2 as [| x l2] using rev_ind.
  - change (l1 ++ [r1; r2])%list with (l1 ++ [r1] ++ [r2])%list in E.
    rewrite app_assoc in E. apply app_inj_tail in E as [-> ->].
    now apply (Hlast l1 r1).
  - clear IHl2.
    change (l1 ++ r1 :: r2 :: l2 ++ [x])%list
      with (l1 ++ (r1 :: r2 :: l2) ++ [x])%list in E.
    rewrite app_assoc in E. apply app_inj_tail in E as [-> _].
    now apply (Hrows l1 r1 r2 l2).
Qed.

Lemma process_match_pairs st text st' :
  process_match year_league state league st text = Ok st' ->
  tracks_last_row st -> no_rollover_pair (df st) -> no_rollover_pair (df st').
Proof.
  intros E Ht Hp.
  apply process_match_Ok in E
    as [[_ ->] | (_ & y & row & dt & _ & Hdt' & Hroll & Hrow & ->)].
  - exact Hp.
  - simpl. apply no_rollover_pair_snoc; [exact Hp |].
    intros l r Hl [H1 H12].
    unfold tracks_last_row in Ht. rewrite Hl, rev_unit in Ht.
    destruct Hrow as (_ & _ & _ & (dt0 & Hdt0 & Hdt) & _).
    rewrite Hdt in H12. simpl in H12.
    assert (dt0 = dt) by congruence. subst dt0.
    rewrite Ht, H1, H12 in Hroll. discriminate Hroll.
Qed.

Lemma loop_tracks matches : forall st,
  tracks_last_row st -> no_rollover_pair (df st) ->
  tracks_last_row (fst (loop year_league state league st matches)) /\
  no_rollover_pair (df (fst (loop year_league state league st matches))).
Proof.
  induction matches as [| text ms IH]; intros st Ht Hp; simpl; [auto |].
  destruct (process_match year_league state league st text) as [st1 |] eqn:E;
    [| auto].
  apply IH.
  - exact (process_match_tracks _ _ _ E Ht).
  - exact (process_match_pairs _ _ _ E Ht Hp).
Qed.

Lemma loop_dt_year matches : forall st y,
  dt_year st = PyInt y ->
  dt_year (fst (loop year_league state league st matches)) = PyInt y.
Proof.
  induction matches as [| text ms IH]; intros st y Hy; simpl; [exact Hy |].
  destruct (process_match year_league state league st text) as [st1 |] eqn:E;
    [| exact Hy].
  apply IH.
  apply process_match_Ok in E
    as [[_ ->] | (_ & y' & row & dt & Hy' & _ & _ & _ & ->)]; simpl; congruence.
Qed.

(** Which step of lines 155-173 raised what: a [TypeError] comes from the
    rollover only, an [OverflowError] from a year that does not fit a C
    [int] only. *)
Lemma process_fields_Raise st date_str home away h_all a_all
      h14 a14 h24 a24 h34 a34 h44 a44 h54 a54 y e :
  dt_year st = PyInt y ->
  process_fields year_league state league st date_str home away h_all a_all
                 h14 a14 h24 a24 h34 a34 h44 a44 h54 a54 = Raise e ->
  e = ValueError \/
  (e = TypeError /\ last_month st = 1 /\
   exists dt, strptime date_str = Ok dt /\ month dt = 12) \/
  (e = OverflowError /\ ~ (- 2 ^ 31 <= y < 2 ^ 31)).
Proof.
  intros Hy. unfold process_fields.
  destruct (index " " date_str) as [i | e0] eqn:Ei; simpl;
    [| intros [= <-]; left; now apply index_raises in Ei].
  rewrite slice_to_from.
  destruct (strptime date_str) as [dt | e0] eqn:Edt; simpl;
    [| intros [= <-]; left; now apply strptime_raises in Edt].
  destruct ((last_month st =? 1) && (month dt =? 12)) eqn:Hroll.
  - simpl. intros [= <-]. right; left.
    apply andb_true_iff in Hroll as [H1 H12].
    apply Z.eqb_eq in H1. apply Z.eqb_eq in H12.
    split; [reflexivity |]. split; [exact H1 |]. now exists dt.
  - rewrite Hy.
    destruct (replace_year dt (PyInt y)) as [dt' | e0] eqn:Erep; simpl.
    + intros H. left.
      repeat match type of H with
             | bind ?r _ = Raise _ =>
                 let E := fresh "E" in
                 destruct r eqn:E; simpl in H;
                 [| injection H as <-;
                    first [ now apply int_str_raises in E
                          | now apply int_raises in E ]]
             end.
      discriminate H.
    + intros [= <-].
      apply replace_year_int_raises in Erep as [-> | [-> Hout]]; auto.
Qed.

Lemma process_match_Raise st text y e :
  dt_year st = PyInt y ->
  process_match year_league state league st text = Raise e ->
  valid_block text = true /\
  (e = ValueError \/
   (e = TypeError /\ last_month st = 1 /\
    exists dt, strptime (nth 0 (tokenize text) EmptyString) = Ok dt /\
               month dt = 12) \/
   (e = OverflowError /\ ~ (- 2 ^ 31 <= y < 2 ^ 31))).
Proof.
  intros Hy H.
  destruct (process_match_cases year_league state league st text)
    as [(d & h & a & ha & aa & p1 & p2 & p3 & p4 & p5 & p6 & p7 & p8 & Ht & Hs)
       | [(d & h & a & ha & aa & p1 & p2 & p3 & p4 & p5 & p6 & p7 & p8 & p9 & p10
           & Ht & Hs)
         | (_ & _ & Hs)]]; rewrite Hs in H; [| | discriminate H];
    (split; [unfold valid_block; now rewrite Ht |]);
    rewrite Ht; simpl nth;
    exact (process_fields_Raise _ _ _ _ _ _ _ _ _ _ _ _ _ _ _ _ _ _ Hy H).
Qed.

End Tracking.

Lemma process_match_rollover year_league state league st text dt :
  valid_block text = true ->
  has_char " " (nth 0 (tokenize text) EmptyString) = true ->
  strptime (nth 0 (tokenize text) EmptyString) = Ok dt ->
  month dt = 12 -> last_month st = 1 ->
  process_match year_league state league st text = Raise TypeError.
Proof.
  intros Hv Hsp Hdt H12 H1.
  destruct (process_match_cases year_league state league st text)
    as [(d & h & a & ha & aa & p1 & p2 & p3 & p4 & p5 & p6 & p7 & p8 & Ht & Hs)
       | [(d & h & a & ha & aa & p1 & p2 & p3 & p4 & p5 & p6 & p7 & p8 & p9 & p10
           & Ht & Hs)
         | (H13 & H15 & _)]].
  - rewrite Hs. rewrite Ht in Hsp, Hdt. simpl in Hsp, Hdt.
    destruct (index_has_char _ _ Hsp) as [i Hi].
    now apply (rollover_raises _ _ _ _ _ _ _ _ _ _ _ _ _ _ _ _ _ _ _ i dt).
  - rewrite Hs. rewrite Ht in Hsp, Hdt. simpl in Hsp, Hdt.
    destruct (index_has_char _ _ Hsp) as [i Hi].
    now apply (rollover_raises _ _ _ _ _ _ _ _ _ _ _ _ _ _ _ _ _ _ _ i dt).
  - unfold valid_block in Hv. apply orb_true_iff in Hv as [Hv | Hv];
      apply Nat.eqb_eq in Hv; contradiction.
Qed.

Lemma initial_state_tracks y :
  tracks_last_row (mk_state [] (-1) (PyInt y) []) /\
  no_rollover_pair (df (mk_state [] (-1) (PyInt y) [])).
Proof.
  split; [reflexivity |].
  intros l1 r1 r2 l2 E. simpl in E. now apply app_cons_not_nil in E.
Qed.

(** In the table of any call, no row of January is directly followed by a
    row of December: the records that the rollover was written for never
    get into the table. *)
Theorem table_has_no_rollover_pair
    (self : DataAcquisition) (matches : list string)
    (url year_league state league : string) :
  no_rollover_pair
    (rows_of (_get_flashscore_data self matches url year_league state league)).
Proof.
  destruct (int_str_total (slice_from 5 year_league)) as [Hy | [y Hy]].
  - rewrite (call_Raise _ _ _ _ _ _ _ Hy). simpl.
    intros l1 r1 r2 l2 E. now apply app_cons_not_nil in E.
  - rewrite (call_Ok _ _ _ _ _ _ _ Hy), rows_of_summarize.
    destruct (initial_state_tracks y) as [Ht Hp].
    exact (proj2 (loop_tracks year_league state league matches _ Ht Hp)).
Qed.

(** The rollover, in general: when the page so far ended normally with a
    January row last in the table, a valid block whose date token holds a
    space and reads as a date in December makes the call raise a
    [TypeError]; the table stays as it was before the block, whatever the
    scores of the block and whatever follows it. *)
Theorem december_after_january_raises
    (self : DataAcquisition) (pre post : list string) (text : string)
    (url year_league state league : string)
    (l : list Row) (r : Row) (dt : datetime) :
  let o_pre := _get_flashscore_data self pre url year_league state league in
  let o := _get_flashscore_data self (pre ++ text :: post)
                                url year_league state league in
  raised o_pre = None ->
  rows_of o_pre = (l ++ [r])%list ->
  month (DT r) = 1 ->
  valid_block text = true ->
  has_char " " (nth 0 (tokenize text) EmptyString) = true ->
  strptime (nth 0 (tokenize text) EmptyString) = Ok dt ->
  month dt = 12 ->
  raised o = Some TypeError /\ rows_of o = rows_of o_pre.
Proof.
  cbv zeta.
  destruct (int_str_total (slice_from 5 year_league)) as [Hy | [y Hy]].
  - rewrite (call_Raise _ _ _ _ _ _ _ Hy). discriminate.
  - rewrite !(call_Ok _ _ _ _ _ _ _ Hy), !raised_summarize, !rows_of_summarize.
    rewrite loop_app.
    destruct (initial_state_tracks y) as [Ht Hp].
    pose proof (proj1 (loop_tracks year_league state league pre _ Ht Hp)) as Htr.
    destruct (loop year_league state league (mk_state [] (-1) (PyInt y) []) pre)
      as [st1 r1]. simpl in *.
    intros -> Hrows H1 Hv Hsp Hdt H12.
    unfold tracks_last_row in Htr. rewrite Hrows, rev_unit in Htr.
    rewrite (process_match_rollover year_league state league st1 text dt)
      by (assumption || congruence).
    simpl. auto.
Qed.

Lemma december_after_january_witness :
  raised (_get_flashscore_data acq ([jan_block] ++ dec_block :: [overtime_block])
                               "url" "2022-2023" "USA" "NBA") = Some TypeError /\
  rows_of (_get_flashscore_data acq ([jan_block] ++ dec_block :: [overtime_block])
                                "url" "2022-2023" "USA" "NBA")
  = rows_of (_get_flashscore_data acq [jan_block] "url" "2022-2023" "USA" "NBA").
Proof.
  apply (december_after_january_raises acq [jan_block] [overtime_block] dec_block
           "url" "2022-2023" "USA" "NBA" []
           (mk_Row "USA" "NBA" "2022-2023" (mk_datetime 2023 1 5 18 0)
                   "TeamA" "TeamB" "away" 100 99 20 18 25 20 25 24 30 37 0 0)
           (mk_datetime 1900 12 1 18 0)); reflexivity.
Defined.

(** What a [TypeError] from the call tells: the table ends with a row of
    January, and the page holds a valid block whose date reads as a date in
    December. *)
Theorem type_error_means_rollover
    (self : DataAcquisition) (matches : list string)
    (url year_league state league : string) :
  let o := _get_flashscore_data self matches url year_league state league in
  raised o = Some TypeError ->
  exists l r text dt,
    rows_of o = (l ++ [r])%list /\ month (DT r) = 1 /\
    In text matches /\ valid_block text = true /\
    strptime (nth 0 (tokenize text) EmptyString) = Ok dt /\ month dt = 12.
Proof.
  cbv zeta.
  destruct (int_str_total (slice_from 5 year_league)) as [Hy | [y Hy]].
  - rewrite (call_Raise _ _ _ _ _ _ _ Hy). discriminate.
  - rewrite (call_Ok _ _ _ _ _ _ _ Hy), raised_summarize, rows_of_summarize.
    destruct (loop year_league state league (mk_state [] (-1) (PyInt y) []) matches)
      as [st' r] eqn:E. simpl. intros ->.
    apply loop_raise_split in E as (pre & text & post & -> & Hpre & Hraise).
    destruct (initial_state_tracks y) as [Ht Hp].
    pose proof (proj1 (loop_tracks year_league state league pre _ Ht Hp)) as Htr.
    pose proof (loop_dt_year year_league state league pre
                  (mk_state [] (-1) (PyInt y) []) y eq_refl) as Hyr.
    rewrite Hpre in Htr, Hyr. simpl in Htr, Hyr.
    apply (process_match_Raise _ _ _ _ _ _ _ Hyr) in Hraise
      as (Hv & [F | [(_ & H1 & dt & Hdt & H12) | (F & _)]]); try discriminate F.
    unfold tracks_last_row in Htr.
    destruct (rev (df st')) as [| r0 l0] eqn:Erev; [lia |].
    exists (rev l0), r0, text, dt.
    repeat split; try assumption.
    + rewrite <- (rev_involutive (df st')), Erev. reflexivity.
    + congruence.
    + apply in_or_app. right. now left.
Qed.

Lemma type_error_means_rollover_witness :
  exists l r text dt,
    rows_of (_get_flashscore_data acq [jan_block; dec_block]
                                  "url" "2022-2023" "USA" "NBA")
    = (l ++ [r])%list /\ month (DT r) = 1 /\
    In text [jan_block; dec_block] /\ valid_block text = true /\
    strptime (nth 0 (tokenize text) EmptyString) = Ok dt /\ month dt = 12.
Proof.
  apply (type_error_means_rollover acq [jan_block; dec_block]
           "url" "2022-2023" "USA" "NBA").
  reflexivity.
Defined.

(** What an [OverflowError] from the call tells: the end year read from the
    label does not fit a C [int]; no row was emitted. *)
Theorem overflow_error_means_huge_year
    (self : DataAcquisition) (matches : list string)
    (url year_league state league : string) :
  let o := _get_flashscore_data self matches url year_league state league in
  raised o = Some OverflowError ->
  exists y,
    int_str (slice_from 5 year_league) = Ok y /\
    ~ (- 2 ^ 31 <= y < 2 ^ 31) /\ rows_of o = [].
Proof.
  cbv zeta. intros Hr.
  destruct (int_str_total (slice_from 5 year_league)) as [Hy | [y Hy]].
  - rewrite (call_Raise _ _ _ _ _ _ _ Hy) in Hr. discriminate.
  - exists y. split; [exact Hy |].
    assert (Hout : ~ (- 2 ^ 31 <= y < 2 ^ 31)).
    { rewrite (call_Ok _ _ _ _ _ _ _ Hy), raised_summarize in Hr.
      destruct (loop year_league state league (mk_state [] (-1) (PyInt y) []) matches)
        as [st' r] eqn:E. simpl in Hr. subst r.
      apply loop_raise_split in E as (pre & text & post & -> & Hpre & Hraise).
      pose proof (loop_dt_year year_league state league pre
                  (mk_state [] (-1) (PyInt y) []) y eq_refl) as Hyr.
      rewrite Hpre in Hyr. simpl in Hyr.
      apply (process_match_Raise _ _ _ _ _ _ _ Hyr) in Hraise
        as (_ & [F | [(F & _) | (_ & Hout)]]); try discriminate F.
      exact Hout. }
    split; [exact Hout |].
    destruct (rows_of (_get_flashscore_data self matches url year_league state league))
      as [| row rows] eqn:E; [reflexivity | exfalso].
    destruct (row_date_facts self matches url year_league state league row)
      as (Hy' & Hrange & _).
    + rewrite E. now left.
    + rewrite Hy in Hy'. injection Hy' as ->.
      unfold MINYEAR, MAXYEAR in Hrange. apply Hout. lia.
Qed.

Lemma overflow_error_witness :
  exists y,
    int_str (slice_from 5 "2022-4000000000") = Ok y /\
    ~ (- 2 ^ 31 <= y < 2 ^ 31) /\
    rows_of (_get_flashscore_data acq [dec_block]
                                  "url" "2022-4000000000" "USA" "NBA") = [].
Proof.
  apply (overflow_error_means_huge_year acq [dec_block]
           "url" "2022-4000000000" "USA" "NBA").
  reflexivity.
Defined.

(** ** When a block yields a row *)




(** ** The winner *)

Lemma compare_refl (s : string) : String.compare s s = Eq.
Proof.
  pose proof (String.compare_antisym s s) as H.
  destruct (String.compare s s); simpl in H; congruence.
Qed.

Lemma str_gt_compare (a b : string) :
  str_gt a b = true <-> String.compare a b = Gt.
Proof.
  unfold str_gt, String.ltb. rewrite (String.compare_antisym b a).
  destruct (String.compare a b); simpl; split; congruence.
Qed.

Lemma winner_of_compare (h_all a_all : string) :
  winner_of h_all a_all =
  match String.compare h_all a_all with
  | Gt => "home"
  | Lt => "away"
  | Eq => "draw"
  end.
Proof.
  unfold winner_of, str_gt, String.ltb.
  rewrite (String.compare_antisym a_all h_all).
  destruct (String.compare h_all a_all); reflexivity.
Qed.

(** The winner follows the order of the two total tokens as texts: it is
    "draw" exactly when the two tokens are the same text, and exchanging the
    tokens exchanges "home" and "away". *)
Theorem winner_follows_the_text_order (h_all a_all : string) :
  (winner_of h_all a_all = "draw" <-> h_all = a_all) /\
  (winner_of h_all a_all = "home" <-> winner_of a_all h_all = "away") /\
  (winner_of h_all a_all = "home" \/ winner_of h_all a_all = "away" \/
   winner_of h_all a_all = "draw").
Proof.
  rewrite !winner_of_compare, (String.compare_antisym a_all h_all).
  destruct (String.compare h_all a_all) eqn:E; simpl.
  - apply String.compare_eq_iff in E. repeat split; auto; discriminate.
  - repeat split; auto; try discriminate.
    intros ->. rewrite compare_refl in E. discriminate.
  - repeat split; auto; try discriminate.
    intros ->. rewrite compare_refl in E. discriminate.
Qed.

Lemma digit_val_range (c : ascii) : is_digit c = true -> 0 <= digit_val c <= 9.
Proof.
  unfold is_digit, digit_val. intros H.
  apply andb_true_iff in H as [H1 H2].
  apply Nat.leb_le in H1. apply Nat.leb_le in H2. lia.
Qed.

Lemma ascii_compare_digit_val (c d : ascii) :
  Ascii.compare c d = (digit_val c ?= digit_val d).
Proof.
  unfold Ascii.compare, digit_val, nat_of_ascii.
  rewrite !N_nat_Z, <- N2Z.inj_compare.
  destruct (Z.compare_spec (Z.of_N (N_of_ascii c)) (Z.of_N (N_of_ascii d)));
    destruct (Z.compare_spec (Z.of_N (N_of_ascii c) - 48)
                             (Z.of_N (N_of_ascii d) - 48));
    try reflexivity; lia.
Qed.

(** On digit texts of the same length, the order of the texts is the order
    of the numbers they write. *)
Lemma digits_compare : forall s t acc1 acc2,
  all_digits s = true -> all_digits t = true ->
  String.length s = String.length t ->
  (digits_value acc1 s ?= digits_value acc2 t) =
  match acc1 ?= acc2 with
  | Eq => String.compare s t
  | c => c
  end.
Proof.
  induction s as [| c s IH]; intros [| d t] acc1 acc2 Hs Ht Hl;
    cbn [digits_value all_digits String.length String.compare] in *;
    try discriminate.
  - now destruct (acc1 ?= acc2).
  - apply andb_true_iff in Hs as [Hc Hs]. apply andb_true_iff in Ht as [Hd Ht].
    injection Hl as Hl.
    rewrite (IH t _ _ Hs Ht Hl), ascii_compare_digit_val.
    pose proof (digit_val_range c Hc). pose proof (digit_val_range d Hd).
    destruct (Z.compare_spec acc1 acc2);
      destruct (Z.compare_spec (digit_val c) (digit_val d));
      destruct (Z.compare_spec (10 * acc1 + digit_val c) (10 * acc2 + digit_val d));
      try reflexivity; lia.
Qed.

Lemma scan_all_digits : forall s acc n,
  all_digits s = true ->
  scan_digits s false acc n
  = Some (digits_value acc s, n + Z.of_nat (String.length s), EmptyString).
Proof.
  induction s as [| c s IH]; intros acc n H;
    cbn [digits_value all_digits String.length scan_digits] in *.
  - now rewrite Z.add_0_r.
  - apply andb_true_iff in H as [Hc Hs]. rewrite Hc, (IH _ _ Hs).
    do 3 f_equal. lia.
Qed.

Lemma int_str_all_digits (s : string) (z : Z) :
  all_digits s = true -> int_str s = Ok z -> z = digits_value 0 s.
Proof.
  intros Hs. unfold int_str.
  destruct (parse_int s) as [z' |] eqn:E; [| discriminate]. intros [= <-].
  destruct s as [| c s]; [discriminate E |].
  pose proof Hs as Hs'. simpl in Hs'. apply andb_true_iff in Hs' as [Hc _].
  rewrite (parse_int_digit_first _ _ Hc), (scan_all_digits _ _ _ Hs) in E.
  destruct (0 + Z.of_nat (String.length (String c s)) =? 0); [discriminate |].
  destruct (int_max_str_digits <? 0 + Z.of_nat (String.length (String c s)));
    [discriminate |].
  simpl in E. injection E as <-. now destruct (digits_value _ _).
Qed.

(** Where the winner is the numeric one: when the two total tokens are
    digits only and have the same number of digits, the winner is "home",
    "away" or "draw" as the home total is greater than, less than or equal
    to the away total, as numbers. *)
Theorem winner_is_numeric_on_equal_lengths (h_all a_all : string) (zh za : Z) :
  all_digits h_all = true -> all_digits a_all = true ->
  String.length h_all = String.length a_all ->
  int_str h_all = Ok zh -> int_str a_all = Ok za ->
  winner_of h_all a_all =
  match zh ?= za with
  | Gt => "home"
  | Lt => "away"
  | Eq => "draw"
  end.
Proof.
  intros Hh Ha Hl Ezh Eza.
  apply (int_str_all_digits _ _ Hh) in Ezh.
  apply (int_str_all_digits _ _ Ha) in Eza. subst zh za.
  rewrite winner_of_compare, (digits_compare _ _ 0 0 Hh Ha Hl). reflexivity.
Qed.

Lemma winner_is_numeric_witness :
  winner_of "90" "85" = match 90 ?= 85 with
                        | Gt => "home" | Lt => "away" | Eq => "draw"
                        end.
Proof.
  apply (winner_is_numeric_on_equal_lengths "90" "85" 90 85); reflexivity.
Defined.

(** ** The table and the blocks *)

Lemma loop_valid_only year_league state league matches : forall st,
  df (fst (loop year_league state league st (filter valid_block matches)))
  = df (fst (loop year_league state league st matches)) /\
  snd (loop year_league state league st (filter valid_block matches))
  = snd (loop year_league state league st matches).
Proof.
  induction matches as [| text ms IH]; intros st; simpl; [auto |].
  destruct (valid_block text) eqn:Hv; simpl.
  - destruct (process_match year_league state league st text) as [st1 |];
      [apply IH | auto].
  - destruct (process_match year_league state league st text) as [st1 |] eqn:E.
    + apply process_match_Ok in E as [[_ ->] | (Hv' & _)]; [| congruence].
      destruct (loop_set_log year_league state league ms
                  (log st ++ [(ERROR, UnknownDiv (tokenize text))])%list st)
        as [H1 H2].
      destruct (IH st) as [H3 H4].
      rewrite H1, H2. auto.
    + exfalso.
      destruct (process_match_cases year_league state league st text)
        as [(d & h & a & ha & aa & p1 & p2 & p3 & p4 & p5 & p6 & p7 & p8 & Ht & _)
           | [(d & h & a & ha & aa & p1 & p2 & p3 & p4 & p5 & p6 & p7 & p8 & p9
               & p10 & Ht & _)
             | (_ & _ & Hs)]];
        try (unfold valid_block in Hv; rewrite Ht in Hv; discriminate Hv).
      congruence.
Qed.

(** The blocks that are not valid have no part in the result: the rows and
    the exception of a call are those of the call on the valid blocks of
    the page alone. *)
Theorem only_valid_blocks_matter
    (self : DataAcquisition) (matches : list string)
    (url year_league state league : string) :
  let o := _get_flashscore_data self matches url year_league state league in
  let o' := _get_flashscore_data self (filter valid_block matches)
                                 url year_league state league in
  rows_of o' = rows_of o /\ raised o' = raised o.
Proof.
  cbv zeta.
  destruct (int_str_total (slice_from 5 year_league)) as [Hy | [y Hy]].
  - rewrite !(call_Raise _ _ _ _ _ _ _ Hy). auto.
  - rewrite !(call_Ok _ _ _ _ _ _ _ Hy), !rows_of_summarize, !raised_summarize.
    apply loop_valid_only.
Qed.



(** ** Counting the tokens *)

Lemma split_length sep s : length (split sep s) = S (count_char sep s).
Proof.
  induction s as [| c s IH]; simpl; [reflexivity |].
  destruct (Ascii.eqb c sep); simpl.
  - now rewrite IH.
  - destruct (split sep s) as [| t ts]; simpl in *; [discriminate | exact IH].
Qed.

Lemma remove_length x l :
  contains x l = true -> S (length (remove x l)) = length l.
Proof.
  induction l as [| y l IH]; simpl; [discriminate |].
  destruct (String.eqb y x); simpl; [reflexivity |].
  intros H. now rewrite (IH H).
Qed.

(** The number of tokens of a block is the number of its line feeds plus
    one, less one when one of its lines is "AOT"; so a block is valid
    exactly when it has 12 or 14 line feeds and no "AOT" line, or 13 or 15
    line feeds and an "AOT" line. *)
Theorem token_count (text : string) :
  length (tokenize text) =
  (if contains "AOT" (split nl text)
   then count_char nl text else S (count_char nl text)) /\
  valid_block text =
  (if contains "AOT" (split nl text)
   then (count_char nl text =? 13) || (count_char nl text =? 15)
   else (count_char nl text =? 12) || (count_char nl text =? 14))%nat.
Proof.
  assert (H : length (tokenize text) =
              if contains "AOT" (split nl text)
              then count_char nl text else S (count_char nl text)).
  { unfold tokenize.
    destruct (contains "AOT" (split nl text)) eqn:E.
    - pose proof (remove_length _ _ E) as H. rewrite split_length in H. lia.
    - apply split_length. }
  split; [exact H |].
  unfold valid_block. rewrite H.
  destruct (contains "AOT" (split nl text)); reflexivity.
Qed.

(** The text of an element written line by line gives its lines back as
    tokens, less the first "AOT" line. *)
Theorem tokenize_lines (l : list string) :
  l <> [] -> Forall (fun t => has_char nl t = false) l ->
  tokenize (lines l) = if contains "AOT" l then remove "AOT" l else l.
Proof.
  intros Hne Hall. unfold tokenize, lines.
  now rewrite (split_join nl l Hne Hall).
Qed.

Lemma tokenize_lines_witness :
  tokenize (lines ["03.12. 20:30"; "TeamC"; "AOT"; "95"])
  = if contains "AOT" ["03.12. 20:30"; "TeamC"; "AOT"; "95"]
    then remove "AOT" ["03.12. 20:30"; "TeamC"; "AOT"; "95"]
    else ["03.12. 20:30"; "TeamC"; "AOT"; "95"].
Proof.
  apply (tokenize_lines ["03.12. 20:30"; "TeamC"; "AOT"; "95"]).
  - discriminate.
  - repeat constructor.
Defined.

(** ** Dates in the usual form *)

Lemma digit_cases (c : ascii) :
  is_digit c = true ->
  c = "0"%char \/ c = "1"%char \/ c = "2"%char \/ c = "3"%char \/ c = "4"%char \/
  c = "5"%char \/ c = "6"%char \/ c = "7"%char \/ c = "8"%char \/ c = "9"%char.
Proof.
  destruct c as [[] [] [] [] [] [] [] []]; intros H;
    try discriminate H; tauto.
Qed.

Ltac each_digit c H :=
  destruct (digit_cases c H)
    as [-> | [-> | [-> | [-> | [-> | [-> | [-> | [-> | [-> | ->]]]]]]]]].

Ltac out_of_range H :=
  exfalso; unfold digit_val in H; simpl in H; lia.

Lemma re_d_two_digits (c1 c2 : ascii) (rest : string) :
  is_digit c1 = true -> is_digit c2 = true ->
  1 <= 10 * digit_val c1 + digit_val c2 <= 31 ->
  exists tl,
    re_d (String c1 (String c2 rest))
    = (String c1 (String c2 EmptyString), rest) :: tl.
Proof.
  intros H1 H2 Hr.
  each_digit c1 H1; each_digit c2 H2;
    first [ out_of_range Hr | eexists; reflexivity ].
Qed.

Lemma re_m_two_digits (c1 c2 : ascii) (rest : string) :
  is_digit c1 = true -> is_digit c2 = true ->
  1 <= 10 * digit_val c1 + digit_val c2 <= 12 ->
  exists tl,
    re_m (String c1 (String c2 rest))
    = (String c1 (String c2 EmptyString), rest) :: tl.
Proof.
  intros H1 H2 Hr.
  each_digit c1 H1; each_digit c2 H2;
    first [ out_of_range Hr | eexists; reflexivity ].
Qed.

Lemma re_H_two_digits (c1 c2 : ascii) (rest : string) :
  is_digit c1 = true -> is_digit c2 = true ->
  0 <= 10 * digit_val c1 + digit_val c2 <= 23 ->
  exists tl,
    re_H (String c1 (String c2 rest))
    = (String c1 (String c2 EmptyString), rest) :: tl.
Proof.
  intros H1 H2 Hr.
  each_digit c1 H1; each_digit c2 H2;
    first [ out_of_range Hr | eexists; reflexivity ].
Qed.

Lemma re_M_two_digits (c1 c2 : ascii) (rest : string) :
  is_digit c1 = true -> is_digit c2 = true ->
  0 <= 10 * digit_val c1 + digit_val c2 <= 59 ->
  exists tl,
    re_M (String c1 (String c2 rest))
    = (String c1 (String c2 EmptyString), rest) :: tl.
Proof.
  intros H1 H2 Hr.
  each_digit c1 H1; each_digit c2 H2;
    first [ out_of_range Hr | eexists; reflexivity ].
Qed.

Lemma re_spaces_one (c : ascii) (rest : string) :
  is_digit c = true ->
  re_spaces (String " " (String c rest))
  = [(String " " EmptyString, String c rest)].
Proof.
  intros H. each_digit c H; reflexivity.
Qed.

Lemma int_str_two_digits (c1 c2 : ascii) :
  is_digit c1 = true -> is_digit c2 = true ->
  int_str (String c1 (String c2 EmptyString))
  = Ok (10 * digit_val c1 + digit_val c2).
Proof.
  intros H1 H2. unfold int_str.
  rewrite (parse_int_digit_first _ _ H1).
  cbn [scan_digits]. rewrite H1, H2.
  cbn [Z.eqb Z.ltb Z.add Z.compare Pos.add Pos.succ Pos.compare
       Pos.compare_cont int_max_str_digits lstrip].
  f_equal. lia.
Qed.

Lemma strptime_usual (d1 d2 m1 m2 h1 h2 n1 n2 : ascii) :
  let dd := 10 * digit_val d1 + digit_val d2 in
  let mo := 10 * digit_val m1 + digit_val m2 in
  let hh := 10 * digit_val h1 + digit_val h2 in
  let mi := 10 * digit_val n1 + digit_val n2 in
  is_digit d1 = true -> is_digit d2 = true ->
  is_digit m1 = true -> is_digit m2 = true ->
  is_digit h1 = true -> is_digit h2 = true ->
  is_digit n1 = true -> is_digit n2 = true ->
  1 <= mo <= 12 -> 1 <= dd <= days_in_month 1900 mo ->
  0 <= hh <= 23 -> 0 <= mi <= 59 ->
  strptime
    (String d1 (String d2 (String "." (String m1 (String m2 (String "."
    (String " " (String h1 (String h2 (String ":" (String n1 (String n2
     EmptyString))))))))))))
  = Ok (mk_datetime 1900 mo dd hh mi).
Proof.
  intros dd mo hh mi Hd1 Hd2 Hm1 Hm2 Hh1 Hh2 Hn1 Hn2 Hmo Hdd Hhh Hmi.
  assert (Hdd' : 1 <= dd <= 31).
  { unfold days_in_month in Hdd.
    destruct (mo =? 2);
      [change (is_leap 1900) with false in Hdd; cbv iota in Hdd; lia |].
    destruct ((mo =? 4) || (mo =? 6) || (mo =? 9) || (mo =? 11)); lia. }
  unfold strptime, format_matches.
  destruct (re_d_two_digits d1 d2
              (String "." (String m1 (String m2 (String "." (String " "
               (String h1 (String h2 (String ":" (String n1 (String n2
                EmptyString))))))))))
              Hd1 Hd2 Hdd') as [t1 ->].
  cbn [flat_map re_lit re_char Ascii.eqb Bool.eqb map app].
  destruct (re_m_two_digits m1 m2
              (String "." (String " " (String h1 (String h2 (String ":"
               (String n1 (String n2 EmptyString)))))))
              Hm1 Hm2 Hmo) as [t2 ->].
  cbn [flat_map re_lit re_char Ascii.eqb Bool.eqb map app].
  rewrite (re_spaces_one h1 _ Hh1).
  cbn [flat_map map app].
  destruct (re_H_two_digits h1 h2 (String ":" (String n1 (String n2 EmptyString)))
              Hh1 Hh2 Hhh) as [t3 ->].
  cbn [flat_map re_lit re_char Ascii.eqb Bool.eqb map app].
  destruct (re_M_two_digits n1 n2 EmptyString Hn1 Hn2 Hmi) as [t4 ->].
  cbn [flat_map map app].
  rewrite !int_str_two_digits by assumption.
  cbn [bind]. fold dd mo hh mi.
  apply new_datetime_in_range; unfold MINYEAR, MAXYEAR; lia.
Qed.

(** The date and time text of a page element in its usual form, two digits
    each for day, month, hour and minute: when the four numbers are a date
    of a year that is not leap and a time of day, [strptime] reads them, in
    the year 1900. *)
Theorem usual_date_is_read (d1 d2 m1 m2 h1 h2 n1 n2 : ascii) :
  is_digit d1 = true -> is_digit d2 = true ->
  is_digit m1 = true -> is_digit m2 = true ->
  is_digit h1 = true -> is_digit h2 = true ->
  is_digit n1 = true -> is_digit n2 = true ->
  1 <= two_digits m1 m2 <= 12 ->
  1 <= two_digits d1 d2 <= days_in_month 1900 (two_digits m1 m2) ->
  0 <= two_digits h1 h2 <= 23 -> 0 <= two_digits n1 n2 <= 59 ->
  strptime (date_text d1 d2 m1 m2 h1 h2 n1 n2)
  = Ok (mk_datetime 1900 (two_digits m1 m2) (two_digits d1 d2)
                    (two_digits h1 h2) (two_digits n1 n2)).
Proof.
  apply strptime_usual.
Qed.

Lemma usual_date_is_read_witness :
  strptime "28.02. 19:30" = Ok (mk_datetime 1900 2 28 19 30).
Proof.
  apply (usual_date_is_read "2" "8" "0" "2" "1" "9" "3" "0");
    try reflexivity; split; apply Z.leb_le; reflexivity.
Defined.

(** ** Score tokens of digits *)

Lemma parse_int_all_digits (s : string) :
  all_digits s = true -> s <> EmptyString ->
  parse_int s =
  if int_max_str_digits <? Z.of_nat (String.length s) then None
  else Some (digits_value 0 s).
Proof.
  intros Hs Hne. destruct s as [| c s]; [contradiction |].
  pose proof Hs as Hs'. cbn [all_digits] in Hs'.
  apply andb_true_iff in Hs' as [Hc _].
  rewrite (parse_int_digit_first _ _ Hc), (scan_all_digits _ _ _ Hs).
  rewrite Z.add_0_l.
  destruct (Z.eqb_spec (Z.of_nat (String.length (String c s))) 0) as [E |];
    [cbn [String.length] in E; lia |].
  destruct (int_max_str_digits <? Z.of_nat (String.length (String c s)));
    [reflexivity |].
  cbn [lstrip]. now rewrite Z.mul_1_l.
Qed.

(** The coercion of line 172 on a token of digits only: it gives the number
    the digits write, leading zeros or not, as long as there are at most
    4300 digits, and raises a [ValueError] beyond. *)
Theorem digit_token_is_read (s : string) :
  all_digits s = true -> s <> EmptyString ->
  int (PyStr s) =
  if Z.of_nat (String.length s) <=? int_max_str_digits
  then Ok (digits_value 0 s) else Raise ValueError.
Proof.
  intros Hs Hne. cbn [int]. unfold int_str.
  rewrite (parse_int_all_digits s Hs Hne), Z.ltb_antisym.
  now destruct (Z.of_nat (String.length s) <=? int_max_str_digits).
Qed.

Lemma digit_token_is_read_witness :
  int (PyStr "0085") =
  if Z.of_nat (String.length "0085") <=? int_max_str_digits
  then Ok (digits_value 0 "0085") else Raise ValueError.
Proof.
  apply (digit_token_is_read "0085"); [reflexivity | discriminate].
Defined.




(** ** Blocks in the usual form *)





(** ** Cutting a page in two *)

Section Cutting.

Variables year_league state league : string.




End Cutting.



(** ** A date token without a space *)

Lemma index_absent (c : ascii) (s : string) :
  has_char c s = false -> index c s = Raise ValueError.
Proof.
  induction s as [| d s IH]; simpl; [reflexivity |].
  destruct (Ascii.eqb d c); simpl; [discriminate |].
  intros H. now rewrite (IH H).
Qed.

(** The [index] of line 156 comes before the parsing: a valid block whose
    date token holds no space character raises a [ValueError], also when
    [strptime] alone would read the token (day and time set apart by a TAB,
    say), and whatever the state of the loop. *)
Theorem date_without_space_raises
    (year_league state league : string) (st : loop_state) (text : string) :
  valid_block text = true ->
  has_char " " (nth 0 (tokenize text) EmptyString) = false ->
  process_match year_league state league st text = Raise ValueError.
Proof.
  intros Hv Hsp.
  destruct (process_match_cases year_league state league st text)
    as [(d & h & a & ha & aa & p1 & p2 & p3 & p4 & p5 & p6 & p7 & p8 & Ht & Hs)
       | [(d & h & a & ha & aa & p1 & p2 & p3 & p4 & p5 & p6 & p7 & p8 & p9 & p10
           & Ht & Hs)
         | (H13 & H15 & _)]].
  - rewrite Hs. rewrite Ht in Hsp. simpl in Hsp.
    unfold process_fields. now rewrite (index_absent _ _ Hsp).
  - rewrite Hs. rewrite Ht in Hsp. simpl in Hsp.
    unfold process_fields. now rewrite (index_absent _ _ Hsp).
  - unfold valid_block in Hv. apply orb_true_iff in Hv as [Hv | Hv];
      apply Nat.eqb_eq in Hv; contradiction.
Qed.

Lemma date_without_space_witness :
  process_match "2022-2023" "USA" "NBA" (mk_state [] (-1) (PyInt 2023) [])
    (lines [String "0" (String "1" (String "." (String "1" (String "2"
            (String "." (String (ascii_of_nat 9) "18:00"))))));
            "TeamA"; "TeamB"; "90"; "85";
            "20"; "18"; "25"; "20"; "25"; "24"; "20"; "23"])
  = Raise ValueError.
Proof.
  apply (date_without_space_raises "2022-2023" "USA" "NBA"); reflexivity.
Defined.
